(** * pulse-server: the health-score engine of [index.js]

    A shallow embedding of the scoring and visibility handlers of the
    project-tracking backend, and the properties its specification states
    about them.

    Conventions of the embedding.
    - In the handlers a JavaScript number is an exact rational or [NaN]:
      the binary64 rounding of [0.4], [0.2] and of the quotients, the
      infinities and the sign of zero are not represented.  The properties
      of the scores are therefore stated for ratings of bounded size, as
      order relations that rounding keeps, or as relations between two
      runs on the same sums; module [B64] repeats the two scoring formulas
      on binary64 numbers, where they can be evaluated on the inputs at
      which the two arithmetics part.
    - A document field holds [undefined] (the field is absent), [null],
      a boolean or a number.  Strings are kept for the fields the handlers compare with
      [===] ([projectId], [week], [severity], [status]).
    - A MongoDB collection is the list of its documents in natural order;
      [find(q).toArray()] is [filter], [findOne] the first match,
      [updateOne] rewrites the first match.
    - An [ObjectId] is its hexadecimal string.
    - [new Date()] is the timestamp the caller passes as [now];
      [getCurrentWeek()] is the label the caller passes as [week]. *)

From Stdlib Require Import ZArith QArith Qround List String Ascii Bool Lia Lqa.
From Stdlib Require Import DecimalString DecimalZ PrimFloat.

Set Warnings "-inexact-float".
Local Open Scope string_scope.
Import ListNotations.
Local Open Scope list_scope.
Local Open Scope Q_scope.

(** ** JavaScript numbers and values *)

Module JS.

Inductive number : Type :=
| Fin (q : Q)
| NaN.

Inductive value : Type :=
| Undefined
| Null
| Boolean (b : bool)
| Number (n : number).

(** [ToNumber] of the language specification, on the values above. *)
Definition toNumber (v : value) : number :=
  match v with
  | Undefined => NaN
  | Null => Fin 0
  | Boolean true => Fin 1
  | Boolean false => Fin 0
  | Number n => n
  end.

Definition lift2 (f : Q -> Q -> Q) (a b : number) : number :=
  match a, b with
  | Fin x, Fin y => Fin (f x y)
  | _, _ => NaN
  end.

Definition add : number -> number -> number := lift2 Qplus.
Definition sub : number -> number -> number := lift2 Qminus.
Definition mul : number -> number -> number := lift2 Qmult.

(** [a / b].  A zero divisor would give an infinity, which the model does
    not have: it yields [NaN].  The handlers divide by a length they have
    tested to be non-zero, and by the literal 5. *)
Definition div (a b : number) : number :=
  match a, b with
  | Fin x, Fin y => if Qeq_bool y 0 then NaN else Fin (x / y)
  | _, _ => NaN
  end.

(** [a < b] and [a > b]: false as soon as one side is [NaN]. *)
Definition lt (a b : number) : bool :=
  match a, b with
  | Fin x, Fin y => negb (Qle_bool y x)
  | _, _ => false
  end.

Definition gt (a b : number) : bool := lt b a.

(** Truthiness of a number: [0] and [NaN] are falsy. *)
Definition truthyNumber (n : number) : bool :=
  match n with
  | Fin q => negb (Qeq_bool q 0)
  | NaN => false
  end.

Definition truthy (v : value) : bool :=
  match v with
  | Undefined => false
  | Null => false
  | Boolean b => b
  | Number n => truthyNumber n
  end.

(** [a || b] on numbers. *)
Definition or (a b : number) : number :=
  if truthyNumber a then a else b.

(** [Math.round]: the nearest integer, a tie going up. *)
Definition round (n : number) : number :=
  match n with
  | Fin q => Fin (inject_Z (Qfloor (q + (1 # 2))))
  | NaN => NaN
  end.

(** [xs.length] as a number. *)
Definition length {A : Type} (xs : list A) : number :=
  Fin (inject_Z (Z.of_nat (List.length xs))).

(** [xs.reduce(f, init)]. *)
Definition reduce {A B : Type} (f : B -> A -> B) (xs : list A) (init : B) : B :=
  fold_left f xs init.

(** What the store keeps of a key of the inserted object: the driver writes
    a key whose value is [undefined] as [null]. *)
Definition stored (v : value) : value :=
  match v with
  | Undefined => Null
  | _ => v
  end.

(** Equality of numbers as values: rationals up to [Qeq]. *)
Definition eqn (a b : number) : Prop :=
  match a, b with
  | Fin x, Fin y => x == y
  | NaN, NaN => True
  | _, _ => False
  end.

(** The number is the integer [z]. *)
Definition int (z : Z) : number := Fin (inject_Z z).

End JS.

Import JS.

(** ** Documents *)

Definition ObjectId := string.

(** [_id.toString()]: the hexadecimal string of the identifier. *)
Definition toString (i : ObjectId) : string := i.

Record Checkin : Type := mkCheckin {
  c_projectId : string;
  c_employeeId : string;
  c_week : string;
  c_progressSummary : string;
  c_blockers : string;
  confidenceLevel : value;
  completionPercentage : value;
  c_createdAt : Z
}.

(** Both shapes of a feedback document: [POST /api/feedbacks] stores
    [flaggedIssue], [POST /api/projects/:id/feedbacks] stores [flagIssue];
    both store [satisfactionRating], neither stores [satisfaction]. *)
Record Feedback : Type := mkFeedback {
  f_projectId : string;
  f_clientId : string;
  satisfactionRating : value;
  satisfaction : value;
  communicationRating : value;
  f_comments : string;
  flaggedIssue : value;
  flagIssue : value;
  f_createdAt : Z
}.

Record Risk : Type := mkRisk {
  r_projectId : string;
  r_title : string;
  severity : string;
  r_mitigationPlan : string;
  r_status : string;
  r_employeeId : string;
  r_createdAt : Z
}.

Record Project : Type := mkProject {
  p_id : ObjectId;
  p_name : string;
  p_description : string;
  p_startDate : Z;
  p_endDate : Z;
  p_client : string;
  p_employees : list string;
  p_status : string;
  p_healthScore : number;
  p_createdAt : Z;
  p_updatedAt : Z
}.

(** The database [db]: one list per collection. *)
Record Db : Type := mkDb {
  projects : list Project;
  checkins : list Checkin;
  feedbacks : list Feedback;
  risks : list Risk
}.

(** ** Policy B: [calculateHealth] *)

Definition isHighOpen (r : Risk) : bool :=
  (severity r =? "High")%string && (r_status r =? "Open")%string.

Definition highRisks (rs : list Risk) : number :=
  JS.length (filter isHighOpen rs).

(** [checkins.length ? checkins.reduce((a,b)=>a+b.confidenceLevel,0)/checkins.length : 5] *)
Definition avgConfidence (cs : list Checkin) : number :=
  if truthyNumber (JS.length cs)
  then div (reduce (fun a b => add a (toNumber (confidenceLevel b))) cs (Fin 0))
           (JS.length cs)
  else Fin 5.

(** The callback [(a,b)=>a+b.satisfaction || 5]: [||] binds looser than
    [+], so the body is [(a + b.satisfaction) || 5]. *)
Definition satisfactionStep (a : number) (b : Feedback) : number :=
  or (add a (toNumber (satisfaction b))) (Fin 5).

Definition avgSatisfaction (fs : list Feedback) : number :=
  if truthyNumber (JS.length fs)
  then div (reduce satisfactionStep fs (Fin 0)) (JS.length fs)
  else Fin 5.

Definition calculateHealth (project : Project) (rs : list Risk)
    (cs : list Checkin) (fs : list Feedback) : number :=
  let score := Fin 100 in
  let score := sub score (mul (highRisks rs) (Fin 10)) in
  let score := mul score (div (avgConfidence cs) (Fin 5)) in
  let score := mul score (div (avgSatisfaction fs) (Fin 5)) in
  let score := if gt score (Fin 100) then Fin 100 else score in
  let score := if lt score (Fin 0) then Fin 0 else score in
  round score.

(** ** Policy A: [GET /api/projects/:id/health] *)

(** [feedbacks.length ? feedbacks.reduce((a,b)=>a+b.satisfactionRating,0)/feedbacks.length : 5] *)
Definition avgClient (fs : list Feedback) : number :=
  if truthyNumber (JS.length fs)
  then div (reduce (fun a b => add a (toNumber (satisfactionRating b))) fs (Fin 0))
           (JS.length fs)
  else Fin 5.

Definition avgConf (cs : list Checkin) : number :=
  if truthyNumber (JS.length cs)
  then div (reduce (fun a b => add a (toNumber (confidenceLevel b))) cs (Fin 0))
           (JS.length cs)
  else Fin 5.

Definition avgCompletion (cs : list Checkin) : number :=
  if truthyNumber (JS.length cs)
  then div (reduce (fun a b => add a (toNumber (completionPercentage b))) cs (Fin 0))
           (JS.length cs)
  else Fin 0.

(** [feedbacks.filter(f=>f.flaggedIssue).length] *)
Definition flaggedCount (fs : list Feedback) : number :=
  JS.length (filter (fun f => truthy (flaggedIssue f)) fs).

(** The value [healthScore] is initialised with:
    [Math.round(avgClient*20*0.4 + avgConf*20*0.4 + avgCompletion*0.2 - flaggedCount*5)]. *)
Definition roundedScore (fs : list Feedback) (cs : list Checkin) : number :=
  round
    (sub
       (add
          (add (mul (mul (avgClient fs) (Fin 20)) (Fin 0.4))
               (mul (mul (avgConf cs) (Fin 20)) (Fin 0.4)))
          (mul (avgCompletion cs) (Fin 0.2)))
       (mul (flaggedCount fs) (Fin 5))).

(** [healthScore] after the two guards. *)
Definition healthScore (fs : list Feedback) (cs : list Checkin) : number :=
  let healthScore := roundedScore fs cs in
  let healthScore := if gt healthScore (Fin 100) then Fin 100 else healthScore in
  let healthScore := if lt healthScore (Fin 0) then Fin 0 else healthScore in
  healthScore.

(** [let status = "On Track"; if(healthScore<60) ... else if(healthScore<80) ...] *)
Definition statusOf (healthScore : number) : string :=
  let status := "On Track"%string in
  if lt healthScore (Fin 60) then "Critical"%string
  else if lt healthScore (Fin 80) then "At Risk"%string
  else status.

(** [db.collection("projects").findOne({ _id })] *)
Definition findOne (ps : list Project) (id : ObjectId) : option Project :=
  find (fun p => (p_id p =? id)%string) ps.

(** [$set: { healthScore, status, updatedAt }] on one document. *)
Definition setHealth (p : Project) (score : number) (status : string)
    (updatedAt : Z) : Project :=
  {| p_id := p_id p;
     p_name := p_name p;
     p_description := p_description p;
     p_startDate := p_startDate p;
     p_endDate := p_endDate p;
     p_client := p_client p;
     p_employees := p_employees p;
     p_status := status;
     p_healthScore := score;
     p_createdAt := p_createdAt p;
     p_updatedAt := updatedAt |}.

(** [db.collection("projects").updateOne({ _id }, { $set: ... })]: the first
    document with that [_id] is rewritten. *)
Fixpoint updateOne (ps : list Project) (id : ObjectId) (score : number)
    (status : string) (updatedAt : Z) : list Project :=
  match ps with
  | [] => []
  | p :: ps' =>
      if (p_id p =? id)%string
      then setHealth p score status updatedAt :: ps'
      else p :: updateOne ps' id score status updatedAt
  end.

Inductive HealthResponse : Type :=
| Status404 (message : string)
| Json (healthScore : number) (status : string).

(** The handler of [GET /api/projects/:id/health], [computeHealth] in the
    specification, at a route parameter that is the string of an
    identifier as the store prints it: [new ObjectId(projectId)] returns
    and its [toString()] is [projectId].  The response and the database it
    leaves.  [healthRoute] below is the handler at any route parameter. *)
Definition computeHealth (now : Z) (projectId : string) (db : Db)
    : HealthResponse * Db :=
  match findOne (projects db) projectId with
  | None => (Status404 "Project not found", db)
  | Some project =>
      let feedbacks' := filter (fun f => (f_projectId f =? projectId)%string) (feedbacks db) in
      let checkins' := filter (fun c => (c_projectId c =? projectId)%string) (checkins db) in
      let healthScore := healthScore feedbacks' checkins' in
      let status := statusOf healthScore in
      (Json healthScore status,
       {| projects := updateOne (projects db) projectId healthScore status now;
          checkins := checkins db;
          feedbacks := feedbacks db;
          risks := risks db |})
  end.

(** ** Route parameters that are read as identifiers

    [new ObjectId(s)] belongs to the database driver.  Its result is the
    argument [parseObjectId] of the handlers below: [Some id] when the
    constructor returns the identifier [id], [None] when it throws. *)

Inductive Outcome (A : Type) : Type :=
| Throws
| Returns (a : A).

Arguments Throws {A}.
Arguments Returns {A} a.

(** The handler of [GET /api/projects/:id/health] at any route parameter.
    The project is looked up and updated by the identifier built from the
    parameter, the feedback and the check-ins are found by the parameter
    itself.  Nothing catches what [new ObjectId] throws. *)
Definition healthRoute (parseObjectId : string -> option ObjectId) (now : Z)
    (projectId : string) (db : Db) : Outcome HealthResponse * Db :=
  match parseObjectId projectId with
  | None => (Throws, db)
  | Some id =>
      match findOne (projects db) id with
      | None => (Returns (Status404 "Project not found"), db)
      | Some project =>
          let feedbacks' := filter (fun f => (f_projectId f =? projectId)%string) (feedbacks db) in
          let checkins' := filter (fun c => (c_projectId c =? projectId)%string) (checkins db) in
          let healthScore := healthScore feedbacks' checkins' in
          let status := statusOf healthScore in
          (Returns (Json healthScore status),
           {| projects := updateOne (projects db) id healthScore status now;
              checkins := checkins db;
              feedbacks := feedbacks db;
              risks := risks db |})
      end
  end.

(** ** The bulk views *)

Record ProjectView : Type := mkView {
  v_project : Project;
  openRisksCount : number;
  v_healthScore : number
}.

(** The handler of [GET /api/admin/projects], [computeDashboard] in the
    specification: each project with its count of open risks and the score
    of [calculateHealth], which takes the place of the stored [healthScore]
    in the answer; and the database it leaves. *)
Definition computeDashboard (db : Db) : list ProjectView * Db :=
  let result :=
    map (fun p =>
           let projectRisks := filter (fun r => (r_projectId r =? toString (p_id p))%string) (risks db) in
           let projectCheckins := filter (fun c => (c_projectId c =? toString (p_id p))%string) (checkins db) in
           let projectFeedbacks := filter (fun f => (f_projectId f =? toString (p_id p))%string) (feedbacks db) in
           {| v_project := p;
              openRisksCount :=
                JS.length (filter (fun r => (r_status r =? "Open")%string) projectRisks);
              v_healthScore := calculateHealth p projectRisks projectCheckins projectFeedbacks |})
        (projects db) in
  (result, db).

(** The handler of [GET /api/admin/projects/missing-checkins],
    [missingCheckinsThisPeriod] in the specification; [week] is the value of
    [getCurrentWeek()]. *)
Definition missingCheckinsThisPeriod (week : string) (db : Db) : list Project :=
  let projects := projects db in
  let checkins := filter (fun c => (c_week c =? week)%string) (checkins db) in
  let missing :=
    filter (fun p => negb (existsb (fun c => (c_projectId c =? toString (p_id p))%string) checkins))
           projects in
  missing.

(** ** The two formulas in binary64

    The arithmetic of the two scoring paths on IEEE 754 binary64 numbers,
    as the engine runs it.  The arguments are the values of the fields the
    formulas read, in collection order. *)

Module B64.

Definition two52 : float := 4503599627370496%float.

(** [xs.length] *)
Fixpoint length {A : Type} (xs : list A) : float :=
  match xs with
  | [] => 0%float
  | _ :: xs' => (length xs' + 1)%float
  end.

(** [Math.floor]: below 2^52 in size, adding and taking away 2^52 rounds to
    an integer; from 2^52 on every number is one. *)
Definition floor (x : float) : float :=
  if (abs x <? two52)%float then
    let r := ((abs x + two52) - two52)%float in
    let t := if (abs x <? r)%float then (r - 1)%float else r in
    if (x <? 0)%float
    then (if (t =? abs x)%float then (- t)%float else (- (t + 1))%float)
    else t
  else x.

(** [Math.round]: the nearest integer, a tie going up; [NaN] and the
    infinities are returned. *)
Definition round (x : float) : float :=
  let f := floor x in
  if (0.5 <=? x - f)%float then (f + 1)%float else f.

(** [xs.length ? xs.reduce((a,b)=>a+b.field,0)/xs.length : default] *)
Definition mean (default : float) (xs : list float) : float :=
  match xs with
  | [] => default
  | _ => (fold_left PrimFloat.add xs 0 / length xs)%float
  end.

(** Policy A, lines 721 to 730 of [index.js]. *)
Definition healthScore (satisfactionRatings confidenceLevels completionPercentages : list float)
    (flaggedCount : float) : float :=
  let avgClient := mean 5 satisfactionRatings in
  let avgConf := mean 5 confidenceLevels in
  let avgCompletion := mean 0 completionPercentages in
  let healthScore :=
    round (avgClient * 20 * 0.4 + avgConf * 20 * 0.4 + avgCompletion * 0.2
           - flaggedCount * 5)%float in
  let healthScore := if (100 <? healthScore)%float then 100%float else healthScore in
  let healthScore := if (healthScore <? 0)%float then 0%float else healthScore in
  healthScore.

(** [(a + b.satisfaction) || 5]; [None] is a document without the field. *)
Definition satisfactionStep (a : float) (b : option float) : float :=
  let sum := match b with
             | Some v => (a + v)%float
             | None => nan
             end in
  if is_nan sum || (sum =? 0)%float then 5%float else sum.

(** Policy B, lines 311 to 329 of [index.js]. *)
Definition calculateHealth (highRisks : float) (confidenceLevels : list float)
    (satisfactions : list (option float)) : float :=
  let score := 100%float in
  let score := (score - highRisks * 10)%float in
  let avgConfidence := mean 5 confidenceLevels in
  let score := (score * (avgConfidence / 5))%float in
  let avgSatisfaction :=
    match satisfactions with
    | [] => 5%float
    | _ => (fold_left satisfactionStep satisfactions 0 / length satisfactions)%float
    end in
  let score := (score * (avgSatisfaction / 5))%float in
  let score := if (100 <? score)%float then 100%float else score in
  let score := if (score <? 0)%float then 0%float else score in
  round score.

End B64.

(** ** The behaviour the specification's formula asks of Policy B

    Written from the specification's pseudo-code, over the ratings
    themselves: start at 100, take 10 per High and Open risk, scale by the
    mean confidence over 5 and by the mean satisfaction over 5 (a mean of
    nothing is 5), round, clamp into 0..100. *)

Definition mean (default : Q) (xs : list Q) : Q :=
  match xs with
  | [] => default
  | _ => fold_right Qplus 0 xs / inject_Z (Z.of_nat (List.length xs))
  end.

Definition policyB_formula (highOpen : nat) (confidences satisfactions : list Q) : Z :=
  let score := 100 - 10 * inject_Z (Z.of_nat highOpen) in
  let score := score * (mean 5 confidences / 5) in
  let score := score * (mean 5 satisfactions / 5) in
  Z.max 0 (Z.min 100 (Qfloor (score + (1 # 2)))).

(** ** The current week: [getCurrentWeek]

    The three readings of the clock are arguments: [year] is
    [now.getFullYear()], [elapsed] is [now - start] in milliseconds, where
    [start] is the first of January of that year, and [startDay] is
    [start.getDay()] (0 for Sunday).  They are integers, on which the
    arithmetic of the function is exact. *)

(** [Math.floor(diff / (7 * 86400000)) + 1], with
    [diff = now - start + ((start.getDay() + 6) % 7) * 86400000]. *)
Definition weekNumber (elapsed startDay : Z) : Z :=
  let diff := (elapsed + Z.rem (startDay + 6) 7 * 86400000)%Z in
  (diff / (7 * 86400000) + 1)%Z.

(** An integer inside a template literal: its decimal digits. *)
Definition numberToString (z : Z) : string :=
  NilZero.string_of_int (Z.to_int z).

(** No character of the string is a minus sign. *)
Fixpoint noDash (s : string) : Prop :=
  match s with
  | EmptyString => True
  | String c s' => c <> "-"%char /\ noDash s'
  end.

(** [`${now.getFullYear()}-W${week}`] *)
Definition getCurrentWeek (year elapsed startDay : Z) : string :=
  (numberToString year ++ "-W" ++ numberToString (weekNumber elapsed startDay))%string.

(** ** Submitting check-ins and feedback *)

Record CheckinBody : Type := mkCheckinBody {
  cb_projectId : option string;
  cb_progressSummary : string;
  cb_blockers : string;
  cb_confidenceLevel : value;
  cb_completionPercentage : value
}.

Inductive SubmitResponse : Type :=
| Status400 (message : string)
| Status201 (message : string).

(** The handler of [POST /api/checkins] for the employee [userId];
    [!projectId] holds of an absent field and of the empty string, and
    [insertOne] puts the document at the end of the collection. *)
Definition submitCheckin (now : Z) (week userId : string) (body : CheckinBody)
    (db : Db) : SubmitResponse * Db :=
  match cb_projectId body with
  | None => (Status400 "ProjectId is required", db)
  | Some projectId =>
      if (projectId =? "")%string
      then (Status400 "ProjectId is required", db)
      else
        let checkin :=
          {| c_projectId := projectId;
             c_employeeId := userId;
             c_week := week;
             c_progressSummary := cb_progressSummary body;
             c_blockers := cb_blockers body;
             confidenceLevel := stored (cb_confidenceLevel body);
             completionPercentage := stored (cb_completionPercentage body);
             c_createdAt := now |} in
        (Status201 "Check-in submitted",
         {| projects := projects db;
            checkins := checkins db ++ [checkin];
            feedbacks := feedbacks db;
            risks := risks db |})
  end.

Record FeedbackBody : Type := mkFeedbackBody {
  fb_projectId : string;
  fb_satisfactionRating : value;
  fb_communicationRating : value;
  fb_comments : option string;
  fb_flaggedIssue : value
}.

(** [comments || ""] *)
Definition commentsOr (c : option string) : string :=
  match c with
  | None => ""
  | Some s => if (s =? "")%string then "" else s
  end.

(** [flaggedIssue || false] *)
Definition flaggedOr (v : value) : value :=
  if truthy v then v else Boolean false.

(** The handler of [POST /api/feedbacks] for the client [userId].  The
    object it inserts has no [satisfaction] and no [flagIssue] key. *)
Definition submitFeedback (now : Z) (userId : string) (body : FeedbackBody)
    (db : Db) : SubmitResponse * Db :=
  let feedback :=
    {| f_projectId := fb_projectId body;
       f_clientId := userId;
       satisfactionRating := stored (fb_satisfactionRating body);
       satisfaction := Undefined;
       communicationRating := stored (fb_communicationRating body);
       f_comments := commentsOr (fb_comments body);
       flaggedIssue := flaggedOr (fb_flaggedIssue body);
       flagIssue := Undefined;
       f_createdAt := now |} in
  (Status201 "Feedback submitted",
   {| projects := projects db;
      checkins := checkins db;
      feedbacks := feedbacks db ++ [feedback];
      risks := risks db |}).

(** ** Pending check-ins of an employee *)

Record Pending : Type := mkPending {
  pe_projectId : string;
  pe_projectName : string;
  pe_week : string
}.

(** [db.collection("checkins").findOne({ projectId, employeeId, week })] *)
Definition findCheckin (cs : list Checkin) (projectId employeeId week : string)
    : option Checkin :=
  find (fun c => (c_projectId c =? projectId)%string
                 && (c_employeeId c =? employeeId)%string
                 && (c_week c =? week)%string) cs.

(** The handler of [GET /api/employee/checkins/pending].  [assigned userId p]
    is the outcome of the query [{ employees: userId }] on the project
    document [p]; the loop pushes one entry per project without a
    check-in. *)
Definition pendingCheckins (assigned : string -> Project -> bool)
    (currentWeek userId : string) (db : Db) : list Pending :=
  let projects := filter (assigned userId) (projects db) in
  fold_left
    (fun pending p =>
       match findCheckin (checkins db) (toString (p_id p)) userId currentWeek with
       | Some existing => pending
       | None =>
           pending ++ [{| pe_projectId := toString (p_id p);
                          pe_projectName := p_name p;
                          pe_week := currentWeek |}]
       end)
    projects [].

(** ** Deleting a project *)

(** [db.collection('projects').deleteOne({ _id })]: the first document with
    that [_id] goes. *)
Fixpoint deleteOne (ps : list Project) (id : ObjectId) : list Project :=
  match ps with
  | [] => []
  | p :: ps' => if (p_id p =? id)%string then ps' else p :: deleteOne ps' id
  end.

(** The handler of [DELETE /api/projects/:id]: the message and the database
    it leaves.  Nothing catches what [new ObjectId] throws, and the message
    does not depend on what [deleteOne] found. *)
Definition deleteProject (parseObjectId : string -> option ObjectId)
    (id : string) (db : Db) : Outcome string * Db :=
  match parseObjectId id with
  | None => (Throws, db)
  | Some oid =>
      (Returns "Project deleted",
       {| projects := deleteOne (projects db) oid;
          checkins := checkins db;
          feedbacks := feedbacks db;
          risks := risks db |})
  end.

(** ** High-risk projects *)

(** [[...new Set(xs)]]: the first occurrence of each string, in order. *)
Definition uniq (xs : list string) : list string :=
  fold_left (fun seen x => if existsb (String.eqb x) seen then seen else seen ++ [x])
            xs [].

Inductive ProjectsResponse : Type :=
| Status500 (message : string)
| Projects (ps : list Project).

(** [projectIds.map(id => new ObjectId(id))]: the identifiers, unless one
    construction throws. *)
Fixpoint parseAll (parseObjectId : string -> option ObjectId) (xs : list string)
    : option (list ObjectId) :=
  match xs with
  | [] => Some []
  | x :: xs' =>
      match parseObjectId x with
      | None => None
      | Some id =>
          match parseAll parseObjectId xs' with
          | None => None
          | Some ids => Some (id :: ids)
          end
      end
  end.

(** The handler of [GET /api/admin/projects/high-risk].  When a
    construction throws, the [catch] answers 500; otherwise [$in] keeps the
    projects whose identifier is among the constructed ones. *)
Definition highRiskProjects (parseObjectId : string -> option ObjectId) (db : Db)
    : ProjectsResponse :=
  let risks :=
    filter (fun r => (r_status r =? "Open")%string && (severity r =? "High")%string)
           (risks db) in
  let projectIds := uniq (map r_projectId risks) in
  match parseAll parseObjectId projectIds with
  | None => Status500 "Server error"
  | Some ids =>
      Projects (filter (fun p => existsb (String.eqb (p_id p)) ids) (projects db))
  end.

(** ** Users *)

(** A user document as the two handlers below write it. *)
Record User : Type := mkUser {
  u_name : string;
  u_email : string;
  u_password : string;
  u_role : string
}.

(** [db.collection("users").findOne({ email })] *)
Definition findByEmail (us : list User) (email : string) : option User :=
  find (fun u => (u_email u =? email)%string) us.

(** The handler of [GET /seed-admin]; [hash] stands for
    [bcrypt.hash(_, 10)]. *)
Definition seedAdmin (hash : string -> string) (us : list User) : string * list User :=
  match findByEmail us "admin@example.com" with
  | Some existing => ("Admin already exists", us)
  | None =>
      ("Admin user created",
       us ++ [{| u_name := "Admin";
                 u_email := "admin@example.com";
                 u_password := hash "admin123";
                 u_role := "admin" |}])
  end.

(** One turn of the loop of [POST /create-users]: the collection and
    [createdUsers]. *)
Definition createUserStep (hash : string -> string)
    (state : list User * list string) (u : User) : list User * list string :=
  let (us, createdUsers) := state in
  match findByEmail us (u_email u) with
  | Some existing => (us, createdUsers)
  | None =>
      (us ++ [{| u_name := u_name u;
                 u_email := u_email u;
                 u_password := hash (u_password u);
                 u_role := u_role u |}],
       createdUsers ++ [u_email u])
  end.

(** The handler of [POST /create-users] on an array body: the collection it
    leaves and the [users] of its answer. *)
Definition createUsers (hash : string -> string) (body : list User)
    (us : list User) : list User * list string :=
  fold_left (createUserStep hash) body (us, []).

(** ** Vocabulary of the properties *)

(** The document [POST /create-users] inserts for an entry of the body. *)
Definition storedUser (hash : string -> string) (u : User) : User :=
  mkUser (u_name u) (u_email u) (hash (u_password u)) (u_role u).

(** The entries of a body whose e-mail address is neither among [seen] nor
    that of an earlier entry. *)
Fixpoint freshUsers (seen : list string) (body : list User) : list User :=
  match body with
  | [] => []
  | u :: rest =>
      if existsb (String.eqb (u_email u)) seen
      then freshUsers seen rest
      else u :: freshUsers (seen ++ [u_email u]) rest
  end.


(** The field holds a number that is not [NaN]. *)
Definition isNumeric (v : value) : Prop := exists q, v = Number (Fin q).

Definition isNonNegative (v : value) : Prop :=
  exists q, v = Number (Fin q) /\ 0 <= q.

(** The field holds a number not above [b]. *)
Definition isAtMost (b : Q) (v : value) : Prop :=
  exists q, v = Number (Fin q) /\ q <= b.

Definition isPositive (v : value) : Prop :=
  exists q, v = Number (Fin q) /\ 0 < q.

(** The rational a numeric field holds. *)
Definition ratingOf (v : value) : Q :=
  match toNumber v with
  | Fin q => q
  | NaN => 0
  end.

(** The document has no numeric [satisfaction]: the field is absent, as in
    every document the server stores, or holds [NaN]. *)
Definition lacksSatisfaction (f : Feedback) : Prop :=
  toNumber (satisfaction f) = NaN.

(** The two guards [if (s > 100) s = 100; if (s < 0) s = 0]. *)
Definition guards (s : number) : number :=
  let s := if gt s (Fin 100) then Fin 100 else s in
  if lt s (Fin 0) then Fin 0 else s.

(** The same two guards on a rational. *)
Definition guardsQ (x : Q) : Q :=
  if Qlt_le_dec 100 x then 100 else if Qlt_le_dec x 0 then 0 else x.

(** The shape shared by the four plain means of the handlers. *)
Definition average {A : Type} (g : A -> value) (default : Q) (xs : list A) : number :=
  if truthyNumber (JS.length xs)
  then div (reduce (fun a b => add a (toNumber (g b))) xs (Fin 0)) (JS.length xs)
  else Fin default.

(** [db.collection("feedbacks").find({ projectId }).toArray()] *)
Definition feedbacksOf (projectId : string) (db : Db) : list Feedback :=
  filter (fun f => (f_projectId f =? projectId)%string) (feedbacks db).

(** [db.collection("checkins").find({ projectId }).toArray()] *)
Definition checkinsOf (projectId : string) (db : Db) : list Checkin :=
  filter (fun c => (c_projectId c =? projectId)%string) (checkins db).

(** The number of risks with severity "High" and status "Open". *)
Definition highOpenCount (rs : list Risk) : nat :=
  List.length (filter isHighOpen rs).

(** [checkins.some(c=>c.projectId === p._id.toString())] over the check-ins
    of the week. *)
Definition someCheckin (week : string) (db : Db) (p : Project) : bool :=
  existsb (fun c => (c_projectId c =? toString (p_id p))%string)
          (filter (fun c => (c_week c =? week)%string) (checkins db)).

(** Some check-in of the week refers to the project. *)
Definition hasCheckin (week : string) (db : Db) (p : Project) : Prop :=
  exists c, In c (checkins db) /\ c_week c = week /\ c_projectId c = toString (p_id p).

(** The fields of a project that the [$set] of the health handler does not
    name. *)
Definition sameFixedFields (p p' : Project) : Prop :=
  p_id p' = p_id p
  /\ p_name p' = p_name p
  /\ p_description p' = p_description p
  /\ p_startDate p' = p_startDate p
  /\ p_endDate p' = p_endDate p
  /\ p_client p' = p_client p
  /\ p_employees p' = p_employees p
  /\ p_createdAt p' = p_createdAt p.

(** ** Sample documents *)

Definition apollo : Project :=
  mkProject "65a000000000000000000001" "Apollo" "Launch" 0 100 "client1"
            ["emp1"; "emp2"] "On Track" (Fin 100) 0 0.

Definition borealis : Project :=
  mkProject "65a000000000000000000002" "Borealis" "Survey" 0 100 "client1"
            ["emp1"] "On Track" (Fin 100) 0 0.

Definition cassini : Project :=
  mkProject "65a000000000000000000003" "Cassini" "Probe" 0 100 "client1"
            ["emp2"] "On Track" (Fin 100) 0 0.

(** A feedback document as [POST /api/feedbacks] stores it. *)
Definition storedFeedback (projectId : string) (rating : Q) (flagged : bool) : Feedback :=
  mkFeedback projectId "client1" (Number (Fin rating)) Undefined (Number (Fin 5)) ""
             (Boolean flagged) Undefined 0.

(** A feedback document that does carry a [satisfaction] field. *)
Definition satisfactionFeedback (projectId : string) (rating : Q) : Feedback :=
  mkFeedback projectId "client1" (Number (Fin rating)) (Number (Fin rating))
             (Number (Fin 5)) "" (Boolean false) Undefined 0.

(** A check-in document as [POST /api/checkins] stores it. *)
Definition storedCheckin (projectId week : string) (confidence completion : Q) : Checkin :=
  mkCheckin projectId "emp1" week "" "" (Number (Fin confidence))
            (Number (Fin completion)) 0.

(** A risk document as [POST /api/risks] stores it. *)
Definition storedRisk (projectId severity status : string) : Risk :=
  mkRisk projectId "Vendor delay" severity "" status "emp1" 0.

(** One project and no record about it. *)
Definition dbEmpty : Db :=
  mkDb [apollo] [] [] [].

(** The scenario of the specification: ratings 4 and 5, confidence 3 and 5,
    completion 50 and 70. *)
Definition dbScenario : Db :=
  mkDb [apollo; borealis]
       [storedCheckin (p_id apollo) "2026-W1" 3 50;
        storedCheckin (p_id apollo) "2026-W2" 5 70]
       [storedFeedback (p_id apollo) 4 false;
        storedFeedback (p_id apollo) 5 false]
       [storedRisk (p_id apollo) "High" "Open"].

(** Ratings of 10: the rounded value is 120 without a flag and 115 with one. *)
Definition dbOver : Db :=
  mkDb [apollo] [] [storedFeedback (p_id apollo) 10 false] [].

Definition dbOverFlagged : Db :=
  mkDb [apollo] []
       [storedFeedback (p_id apollo) 10 false; storedFeedback (p_id apollo) 10 true] [].

(** Three projects; only Borealis has a check-in in week 2026-W45. *)
Definition dbWeek : Db :=
  mkDb [apollo; borealis; cassini]
       [storedCheckin (p_id apollo) "2026-W44" 4 40;
        storedCheckin (p_id borealis) "2026-W45" 5 60;
        storedCheckin (p_id cassini) "2026-W43" 3 10]
       [] [].

(** The query [{ employees: userId }] on a project document whose
    [employees] are strings, as the first [POST /api/projects] of [index.js]
    writes them ([employees: employeeIds]): the array holds the string. *)
Definition employeesInclude (userId : string) (p : Project) : bool :=
  existsb (String.eqb userId) (p_employees p).

(** A constructor for the examples: a string of 24 hexadecimal digits is
    read without regard to the case of its letters, any other string is
    refused. *)
Definition isHexDigit (c : ascii) : bool :=
  let n := nat_of_ascii c in
  ((48 <=? n) && (n <=? 57) || (97 <=? n) && (n <=? 102)
   || (65 <=? n) && (n <=? 70))%nat.

Definition lowerHexDigit (c : ascii) : ascii :=
  let n := nat_of_ascii c in
  if ((65 <=? n) && (n <=? 70))%nat then ascii_of_nat (n + 32) else c.

Fixpoint allHex (s : string) : bool :=
  match s with
  | EmptyString => true
  | String c s' => isHexDigit c && allHex s'
  end.

Fixpoint lowerHex (s : string) : string :=
  match s with
  | EmptyString => EmptyString
  | String c s' => String (lowerHexDigit c) (lowerHex s')
  end.

Definition hexObjectId (s : string) : option ObjectId :=
  if (String.length s =? 24)%nat && allHex s then Some (lowerHex s) else None.

(** The scenario of the specification for the high-risk view: a High and
    Open risk on Apollo, a Low and Open one on Borealis, and a second High
    and Open risk on Apollo whose identifier is spelled in upper case. *)
Definition dbRisks : Db :=
  mkDb [apollo; borealis] [] []
       [storedRisk (p_id apollo) "High" "Open";
        storedRisk (p_id borealis) "Low" "Open";
        storedRisk "65A000000000000000000001" "High" "Open"].

(** Apollo with two feedback documents rated 5 and 4, the second flagged. *)
Definition dbFlagged : Db :=
  mkDb [apollo] []
       [storedFeedback (p_id apollo) 5 false; storedFeedback (p_id apollo) 4 true] [].


(** * Properties *)

(** ** Numbers *)

Lemma lt_spec (x y : Q) : lt (Fin x) (Fin y) = true <-> x < y.
Proof.
  unfold lt. rewrite negb_true_iff.
  destruct (Qle_bool y x) eqn:E.
  - apply Qle_bool_iff in E. split; [discriminate | intro H; exfalso; lra].
  - split; [intros _ | reflexivity].
    apply Qnot_le_lt. intro H. apply Qle_bool_iff in H. congruence.
Qed.

Lemma lt_false (x y : Q) : lt (Fin x) (Fin y) = false <-> y <= x.
Proof.
  destruct (lt (Fin x) (Fin y)) eqn:E.
  - apply lt_spec in E. split; [discriminate | intro; exfalso; lra].
  - split; [intros _ | reflexivity].
    apply Qnot_lt_le. intro H. apply lt_spec in H. congruence.
Qed.

Lemma lt_int (a b : Z) : lt (int a) (int b) = (a <? b)%Z.
Proof.
  unfold int. destruct (a <? b)%Z eqn:E.
  - apply lt_spec. rewrite <- Zlt_Qlt. lia.
  - apply lt_false. rewrite <- Zle_Qle. lia.
Qed.

Lemma int_inj (a b : Z) : int a = int b -> a = b.
Proof. unfold int. intro H. injection H as H. exact H. Qed.

Lemma guards_int (z : Z) : guards (int z) = int (Z.max 0 (Z.min 100 z)).
Proof.
  unfold guards, gt.
  change (Fin 100) with (int 100). change (Fin 0) with (int 0).
  rewrite lt_int.
  destruct (100 <? z)%Z eqn:E1.
  - rewrite lt_int. simpl. f_equal. lia.
  - rewrite lt_int. destruct (z <? 0)%Z eqn:E2; f_equal; lia.
Qed.

Lemma Qfloor_unique (x : Q) (z : Z) :
  inject_Z z <= x -> x < inject_Z (z + 1) -> Qfloor x = z.
Proof.
  intros Hl Hu.
  pose proof (Qfloor_le x) as H1. pose proof (Qlt_floor x) as H2.
  assert (inject_Z z < inject_Z (Qfloor x + 1)) as A by lra.
  assert (inject_Z (Qfloor x) < inject_Z (z + 1)) as B by lra.
  rewrite <- Zlt_Qlt in A, B. lia.
Qed.

Lemma Qfloor_minus_int (x : Q) (k : Z) :
  Qfloor (x - inject_Z k) = (Qfloor x - k)%Z.
Proof.
  apply Qfloor_unique.
  - pose proof (Qfloor_le x). unfold Zminus. rewrite inject_Z_plus, inject_Z_opp. lra.
  - pose proof (Qlt_floor x) as H.
    replace (Qfloor x - k + 1)%Z with ((Qfloor x + 1) + - k)%Z by lia.
    rewrite inject_Z_plus, inject_Z_opp. lra.
Qed.

Lemma guards_Fin (x : Q) : guards (Fin x) = Fin (guardsQ x).
Proof.
  unfold guards, guardsQ, gt.
  destruct (Qlt_le_dec 100 x) as [H | H].
  - apply lt_spec in H. rewrite H. reflexivity.
  - apply lt_false in H. rewrite H.
    destruct (Qlt_le_dec x 0) as [H0 | H0].
    + apply lt_spec in H0. rewrite H0. reflexivity.
    + apply lt_false in H0. rewrite H0. reflexivity.
Qed.

Lemma guardsQ_range (x : Q) : 0 <= guardsQ x <= 100.
Proof.
  unfold guardsQ.
  destruct (Qlt_le_dec 100 x); [lra |].
  destruct (Qlt_le_dec x 0); lra.
Qed.

Lemma guardsQ_mono (x y : Q) : x <= y -> guardsQ x <= guardsQ y.
Proof.
  intro H. unfold guardsQ.
  destruct (Qlt_le_dec 100 x), (Qlt_le_dec 100 y); try lra;
    destruct (Qlt_le_dec x 0), (Qlt_le_dec y 0); lra.
Qed.

Lemma round_guards (x : Q) :
  round (guards (Fin x)) = int (Qfloor (guardsQ x + (1 # 2))).
Proof. rewrite guards_Fin. reflexivity. Qed.

Lemma round_guards_range (x : Q) :
  (0 <= Qfloor (guardsQ x + (1 # 2)) <= 100)%Z.
Proof.
  pose proof (guardsQ_range x) as [H0 H1]. split.
  - change 0%Z with (Qfloor 0) at 1. apply Qfloor_resp_le. lra.
  - replace 100%Z with (Qfloor (100 + (1 # 2))) by reflexivity.
    apply Qfloor_resp_le. lra.
Qed.

Lemma round_guards_mono (x y : Q) :
  x <= y -> (Qfloor (guardsQ x + (1 # 2)) <= Qfloor (guardsQ y + (1 # 2)))%Z.
Proof.
  intro H. apply Qfloor_resp_le. pose proof (guardsQ_mono x y H). lra.
Qed.

(** ** Means *)

Lemma length_cons_truthy {A : Type} (x : A) (xs : list A) :
  truthyNumber (JS.length (x :: xs)) = true.
Proof.
  unfold JS.length, truthyNumber. rewrite negb_true_iff.
  destruct (Qeq_bool _ 0) eqn:E; [| reflexivity].
  apply Qeq_bool_iff in E. unfold Qeq in E. simpl in E. lia.
Qed.

Lemma div_length {A : Type} (s : Q) (x : A) (xs : list A) :
  div (Fin s) (JS.length (x :: xs))
  = Fin (s / inject_Z (Z.of_nat (List.length (x :: xs)))).
Proof.
  pose proof (length_cons_truthy x xs) as H.
  unfold JS.length, truthyNumber in H. rewrite negb_true_iff in H.
  unfold div, JS.length. rewrite H. reflexivity.
Qed.

Lemma length_pos {A : Type} (x : A) (xs : list A) :
  0 < inject_Z (Z.of_nat (List.length (x :: xs))).
Proof. change 0 with (inject_Z 0). rewrite <- Zlt_Qlt. simpl. lia. Qed.

Section Average.

Context {A : Type} (g : A -> value).

Variable P : Q -> Prop.
Hypothesis P_plus : forall x y, P x -> P y -> P (x + y).

Lemma reduce_add_closed (xs : list A) (a : Q) :
  P a ->
  Forall (fun x => exists q, g x = Number (Fin q) /\ P q) xs ->
  exists s, reduce (fun a b => add a (toNumber (g b))) xs (Fin a) = Fin s /\ P s.
Proof.
  unfold reduce. revert a.
  induction xs as [| x xs IH]; intros a Ha Hall.
  - exists a. split; [reflexivity | exact Ha].
  - inversion Hall as [| ? ? (q & Hq & HP) Hrest]; subst.
    simpl. rewrite Hq. simpl.
    apply IH; [apply P_plus; assumption | exact Hrest].
Qed.

End Average.


Lemma average_nonneg {A : Type} (g : A -> value) (d : Q) (xs : list A) :
  0 <= d ->
  Forall (fun x => isNonNegative (g x)) xs ->
  exists q, average g d xs = Fin q /\ 0 <= q.
Proof.
  intros Hd Hall. destruct xs as [| x xs].
  - exists d. split; [reflexivity | exact Hd].
  - unfold average. rewrite length_cons_truthy.
    destruct (reduce_add_closed g (fun q => 0 <= q)) with (xs := x :: xs) (a := 0)
      as (s & Hs & Hpos).
    + intros; lra.
    + lra.
    + exact Hall.
    + rewrite Hs, div_length. eexists. split; [reflexivity |].
      pose proof (length_pos x xs) as Hn.
      apply Qle_shift_div_l; [exact Hn | lra].
Qed.

Lemma reduce_add_sum {A : Type} (g : A -> value) (xs : list A) (a : Q) :
  Forall (fun x => isNumeric (g x)) xs ->
  exists s,
    reduce (fun a b => add a (toNumber (g b))) xs (Fin a) = Fin s
    /\ s == a + fold_right Qplus 0 (map (fun x => ratingOf (g x)) xs).
Proof.
  unfold reduce. revert a.
  induction xs as [| x xs IH]; intros a Hall.
  - exists a. split; [reflexivity | simpl; ring].
  - inversion Hall as [| ? ? (q & Hq) Hrest]; subst.
    cbn [fold_left map fold_right]. unfold ratingOf at 1. rewrite Hq.
    cbn [toNumber add lift2].
    destruct (IH (a + q) Hrest) as (s & Hs & Hsum).
    exists s. split; [exact Hs | rewrite Hsum; ring].
Qed.

(** The accumulator of [avgSatisfaction]'s [reduce]. *)
Lemma satisfaction_reduce_nonneg (fs : list Feedback) (a : Q) :
  0 <= a ->
  Forall (fun f => isNonNegative (satisfaction f) \/ toNumber (satisfaction f) = NaN) fs ->
  exists s, reduce satisfactionStep fs (Fin a) = Fin s /\ 0 <= s.
Proof.
  unfold reduce. revert a.
  induction fs as [| f fs IH]; intros a Ha Hall.
  - exists a. split; [reflexivity | exact Ha].
  - inversion Hall as [| ? ? Hf Hrest]; subst. simpl.
    unfold satisfactionStep at 2.
    destruct Hf as [(q & Hq & Hpos) | Hnan].
    + rewrite Hq. simpl. unfold or, truthyNumber.
      destruct (negb (Qeq_bool (a + q) 0)); apply IH; try assumption; lra.
    + rewrite Hnan. simpl. apply IH; [lra | exact Hrest].
Qed.

(** Without a numeric [satisfaction], every step leaves the accumulator at 5. *)
Lemma satisfaction_reduce_reset (fs : list Feedback) (a : number) :
  fs <> [] ->
  Forall (fun f => toNumber (satisfaction f) = NaN) fs ->
  reduce satisfactionStep fs a = Fin 5.
Proof.
  unfold reduce. revert a.
  induction fs as [| f fs IH]; intros a Hne Hall; [congruence |].
  inversion Hall as [| ? ? Hf Hrest]; subst. simpl.
  assert (satisfactionStep a f = Fin 5) as ->.
  { unfold satisfactionStep. rewrite Hf. destruct a; reflexivity. }
  destruct fs as [| f' fs']; [reflexivity |].
  apply IH; [discriminate | exact Hrest].
Qed.

(** ** The two scoring paths in closed form *)

Lemma computeHealth_found (now : Z) (projectId : string) (db : Db) (p : Project) :
  findOne (projects db) projectId = Some p ->
  computeHealth now projectId db =
  (let s := healthScore (feedbacksOf projectId db) (checkinsOf projectId db) in
   (Json s (statusOf s),
    {| projects := updateOne (projects db) projectId s (statusOf s) now;
       checkins := checkins db;
       feedbacks := feedbacks db;
       risks := risks db |})).
Proof. intro H. unfold computeHealth. rewrite H. reflexivity. Qed.

Lemma findOne_updateOne (ps : list Project) (id : ObjectId) (p : Project)
    (s : number) (st : string) (now : Z) :
  findOne ps id = Some p ->
  findOne (updateOne ps id s st now) id = Some (setHealth p s st now).
Proof.
  unfold findOne. induction ps as [| x ps IH]; simpl; [discriminate |].
  destruct (p_id x =? id)%string eqn:E.
  - intro H. injection H as ->. simpl. rewrite E. reflexivity.
  - intro H. simpl. rewrite E. apply IH, H.
Qed.




Lemma calculateHealth_closed (project : Project) (rs : list Risk)
    (cs : list Checkin) (fs : list Feedback) (c s : Q) :
  avgConfidence cs = Fin c ->
  avgSatisfaction fs = Fin s ->
  calculateHealth project rs cs fs =
  int (Qfloor (guardsQ ((100 - inject_Z (Z.of_nat (highOpenCount rs)) * 10)
                        * (c / 5) * (s / 5)) + (1 # 2))).
Proof.
  intros Hc Hs. unfold calculateHealth. rewrite Hc, Hs.
  rewrite <- round_guards. reflexivity.
Qed.


(** ** C1: both scores are integers between 0 and 100 *)




(** ** C2: no feedback and no check-in *)

(** C2, as amended.  For a project without any feedback and any check-in
    the health handler answers score 80 with status "On Track": the test
    [healthScore<80] fails at 80. *)
Theorem C2_default_score (now : Z) (projectId : string) (db : Db) (p : Project) :
  findOne (projects db) projectId = Some p ->
  feedbacksOf projectId db = [] ->
  checkinsOf projectId db = [] ->
  fst (computeHealth now projectId db) = Json (int 80) "On Track".
Proof.
  intros Hp Hf Hc.
  rewrite (computeHealth_found now projectId db p Hp), Hf, Hc.
  reflexivity.
Qed.

Lemma C2_default_score_witness :
  fst (computeHealth 7 (p_id apollo) dbEmpty) = Json (int 80) "On Track".
Proof.
  apply (C2_default_score 7 (p_id apollo) dbEmpty apollo); reflexivity.
Defined.

(** C2 as stated fails: without records the status is not "At Risk". *)
Lemma C2_counterexample :
  feedbacksOf (p_id apollo) dbEmpty = []
  /\ checkinsOf (p_id apollo) dbEmpty = []
  /\ fst (computeHealth 7 (p_id apollo) dbEmpty) = Json (int 80) "On Track"
  /\ fst (computeHealth 7 (p_id apollo) dbEmpty) <> Json (int 80) "At Risk".
Proof.
  repeat split; try reflexivity. vm_compute. discriminate.
Qed.

(** ** C3: the status thresholds *)

(** C3.  The status the health handler answers is [statusOf] of the score it
    answers, and [statusOf] is: below 60 "Critical", from 60 and below 80
    "At Risk", from 80 "On Track"; so 59, 60, 79 and 80 give "Critical",
    "At Risk", "At Risk" and "On Track". *)
Theorem C3_status_from_score :
  (forall (now : Z) (projectId : string) (db : Db) (s : number) (st : string),
      fst (computeHealth now projectId db) = Json s st -> st = statusOf s)
  /\ (forall q : Q,
        (q < 60 -> statusOf (Fin q) = "Critical"%string)
        /\ (60 <= q -> q < 80 -> statusOf (Fin q) = "At Risk"%string)
        /\ (80 <= q -> statusOf (Fin q) = "On Track"%string))
  /\ statusOf (int 59) = "Critical"%string
  /\ statusOf (int 60) = "At Risk"%string
  /\ statusOf (int 79) = "At Risk"%string
  /\ statusOf (int 80) = "On Track"%string.
Proof.
  split; [| split; [| repeat split; reflexivity]].
  - intros now projectId db s st. unfold computeHealth.
    destruct (findOne (projects db) projectId); simpl; [| discriminate].
    intro H. injection H as <- <-. reflexivity.
  - intro q. unfold statusOf. repeat split.
    + intro H. apply lt_spec in H. rewrite H. reflexivity.
    + intros H1 H2. apply lt_false in H1. apply lt_spec in H2.
      rewrite H1, H2. reflexivity.
    + intro H.
      assert (lt (Fin q) (Fin 60) = false) as -> by (apply lt_false; lra).
      assert (lt (Fin q) (Fin 80) = false) as -> by (apply lt_false; lra).
      reflexivity.
Qed.

Lemma C3_status_from_score_witness :
  fst (computeHealth 7 (p_id apollo) dbScenario) = Json (int 80) "On Track"
  /\ "On Track"%string = statusOf (int 80)
  /\ statusOf (Fin (119 # 2)) = "Critical"%string
  /\ statusOf (Fin (159 # 2)) = "At Risk"%string
  /\ statusOf (Fin (161 # 2)) = "On Track"%string.
Proof.
  destruct C3_status_from_score as (Hfun & Hthr & _).
  split; [reflexivity |]. split.
  - apply (Hfun 7%Z (p_id apollo) dbScenario). reflexivity.
  - split; [| split].
    + apply (proj1 (Hthr (119 # 2))). reflexivity.
    + apply (proj1 (proj2 (Hthr (159 # 2)))); [discriminate | reflexivity].
    + apply (proj2 (proj2 (Hthr (161 # 2)))). discriminate.
Defined.


(** ** C4: Policy B against the formula of the specification *)

(** C4.  [calculateHealth] leaves the formula on feedback.  Two feedback
    documents of the stored shape, each rated 5, with no risk and no
    check-in: the formula gives 100, the code 50, also through the
    dashboard handler.  One document whose [satisfaction] is 0: the formula
    gives 0, the code 100. *)
Theorem C4_formula_divergence :
  let stored := [storedFeedback (p_id apollo) 5 false;
                 storedFeedback (p_id apollo) 5 false] in
  calculateHealth apollo [] [] stored = int 50
  /\ policyB_formula 0 [] [5; 5] = 100%Z
  /\ map v_healthScore (fst (computeDashboard (mkDb [apollo] [] stored []))) = [int 50]
  /\ calculateHealth apollo [] [] [satisfactionFeedback (p_id apollo) 0] = int 100
  /\ policyB_formula 0 [] [0] = 0%Z.
Proof. repeat split; vm_compute; reflexivity. Qed.

(** ** C5: the satisfaction aggregate without a [satisfaction] field *)

Lemma avgSatisfaction_reset (fs : list Feedback) :
  fs <> [] ->
  Forall lacksSatisfaction fs ->
  avgSatisfaction fs = Fin (5 / inject_Z (Z.of_nat (List.length fs))).
Proof.
  intros Hne Hall. destruct fs as [| f fs]; [congruence |].
  unfold avgSatisfaction. rewrite length_cons_truthy.
  rewrite (satisfaction_reduce_reset (f :: fs) (Fin 0) Hne Hall).
  apply div_length.
Qed.

Lemma multiplier_reset (fs : list Feedback) :
  fs <> [] ->
  Forall lacksSatisfaction fs ->
  div (avgSatisfaction fs) (Fin 5)
  = Fin (5 / inject_Z (Z.of_nat (List.length fs)) / 5).
Proof.
  intros Hne Hall. rewrite (avgSatisfaction_reset fs Hne Hall). reflexivity.
Qed.

Lemma count_pos {A : Type} (xs : list A) :
  xs <> [] -> 0 < inject_Z (Z.of_nat (List.length xs)).
Proof. destruct xs as [| x xs]; [congruence | intros _; apply length_pos]. Qed.

Lemma reset_multiplier_value (n : Q) : 0 < n -> 5 / n / 5 == 1 / n.
Proof. intro H. field. lra. Qed.

(** C5.  For a non-empty list of [n] feedback documents without a numeric
    [satisfaction], the aggregate of [calculateHealth] is [5 / n], which is
    not 5 from two documents on; the multiplier [avgSatisfaction / 5] is
    [1 / n], is smaller for a longer such list and falls below every
    positive bound, whatever [satisfactionRating] the documents carry. *)
Theorem C5_satisfaction_reset (fs : list Feedback) :
  fs <> [] ->
  Forall lacksSatisfaction fs ->
  let n := inject_Z (Z.of_nat (List.length fs)) in
  avgSatisfaction fs = Fin (5 / n)
  /\ ((2 <= List.length fs)%nat -> ~ eqn (avgSatisfaction fs) (Fin 5))
  /\ eqn (div (avgSatisfaction fs) (Fin 5)) (Fin (1 / n))
  /\ (forall gs : list Feedback,
         Forall lacksSatisfaction gs ->
         (List.length fs < List.length gs)%nat ->
         lt (div (avgSatisfaction gs) (Fin 5)) (div (avgSatisfaction fs) (Fin 5)) = true)
  /\ (forall eps : Q,
         0 < eps ->
         exists N : nat,
           forall gs : list Feedback,
             Forall lacksSatisfaction gs ->
             (N <= List.length gs)%nat ->
             lt (div (avgSatisfaction gs) (Fin 5)) (Fin eps) = true).
Proof.
  intros Hne Hall n.
  pose proof (count_pos fs Hne) as Hn. fold n in Hn.
  split; [apply avgSatisfaction_reset; assumption |].
  split; [| split; [| split]].
  - intros H2. rewrite (avgSatisfaction_reset fs Hne Hall). fold n.
    unfold eqn. intro E.
    assert (2 <= n) as Hn2.
    { unfold n. change 2 with (inject_Z 2). rewrite <- Zle_Qle. lia. }
    assert (5 / n * n == 5) as E' by (field; lra).
    rewrite E in E'. lra.
  - rewrite (multiplier_reset fs Hne Hall). fold n. unfold eqn.
    apply reset_multiplier_value, Hn.
  - intros gs Hgs Hlen.
    assert (gs <> []) as Hgne by (destruct gs; [simpl in Hlen; lia | discriminate]).
    rewrite (multiplier_reset gs Hgne Hgs), (multiplier_reset fs Hne Hall).
    apply lt_spec. fold n.
    pose proof (count_pos gs Hgne) as Hm.
    set (m := inject_Z (Z.of_nat (List.length gs))) in *.
    assert (n < m) as Hnm by (unfold n, m; rewrite <- Zlt_Qlt; lia).
    rewrite (reset_multiplier_value m Hm), (reset_multiplier_value n Hn).
    apply Qlt_shift_div_r; [exact Hm |].
    assert (1 / n * m == m / n) as -> by (field; lra).
    apply Qlt_shift_div_l; [exact Hn | lra].
  - intros eps Heps.
    exists (S (Z.to_nat (Qceiling (1 / eps)))).
    intros gs Hgs Hlen.
    assert (gs <> []) as Hgne by (destruct gs; [simpl in Hlen; lia | discriminate]).
    rewrite (multiplier_reset gs Hgne Hgs).
    apply lt_spec.
    pose proof (count_pos gs Hgne) as Hm.
    set (m := inject_Z (Z.of_nat (List.length gs))) in *.
    rewrite (reset_multiplier_value m Hm).
    assert (1 / eps < m) as Hbig.
    { apply Qle_lt_trans with (inject_Z (Qceiling (1 / eps))); [apply Qle_ceiling |].
      unfold m. rewrite <- Zlt_Qlt. lia. }
    apply Qlt_shift_div_r; [exact Hm |].
    assert (1 == 1 / eps * eps) as E by (field; lra).
    rewrite E at 1. rewrite (Qmult_comm eps m).
    apply Qmult_lt_compat_r; assumption.
Qed.

Lemma C5_satisfaction_reset_witness :
  avgSatisfaction [storedFeedback (p_id apollo) 5 false;
                   storedFeedback (p_id apollo) 5 false;
                   storedFeedback (p_id apollo) 4 true;
                   storedFeedback (p_id apollo) 5 false]
  = Fin (5 / inject_Z 4).
Proof.
  apply (C5_satisfaction_reset
           [storedFeedback (p_id apollo) 5 false;
            storedFeedback (p_id apollo) 5 false;
            storedFeedback (p_id apollo) 4 true;
            storedFeedback (p_id apollo) 5 false]).
  - discriminate.
  - repeat constructor.
Defined.

(** ** C6: one more High and Open risk *)

Lemma avgSatisfaction_nonneg (fs : list Feedback) :
  Forall (fun f => isNonNegative (satisfaction f) \/ lacksSatisfaction f) fs ->
  exists s, avgSatisfaction fs = Fin s /\ 0 <= s.
Proof.
  intro Hall. destruct fs as [| f fs].
  - exists 5. split; [reflexivity | lra].
  - unfold avgSatisfaction. rewrite length_cons_truthy.
    destruct (satisfaction_reduce_nonneg (f :: fs) 0) as (s & Hs & Hpos);
      [lra | exact Hall |].
    rewrite Hs, div_length. eexists. split; [reflexivity |].
    apply Qle_shift_div_l; [apply length_pos | lra].
Qed.

Lemma highOpenCount_insert (rs1 rs2 : list Risk) (r : Risk) :
  severity r = "High" ->
  r_status r = "Open" ->
  highOpenCount (rs1 ++ r :: rs2) = S (highOpenCount (rs1 ++ rs2)).
Proof.
  intros Hsev Hst. unfold highOpenCount.
  rewrite !filter_app, !length_app. simpl.
  unfold isHighOpen at 2. rewrite Hsev, Hst. simpl. lia.
Qed.

Lemma high_risk_monotone_exact (project : Project) (rs1 rs2 : list Risk)
    (r : Risk) (cs : list Checkin) (fs : list Feedback) :
  severity r = "High" ->
  r_status r = "Open" ->
  Forall (fun c => isNonNegative (confidenceLevel c)) cs ->
  Forall (fun f => isNonNegative (satisfaction f) \/ lacksSatisfaction f) fs ->
  exists before after : Z,
    calculateHealth project (rs1 ++ rs2) cs fs = int before
    /\ calculateHealth project (rs1 ++ r :: rs2) cs fs = int after
    /\ (after <= before)%Z.
Proof.
  intros Hsev Hst Hcs Hfs.
  destruct (average_nonneg confidenceLevel 5 cs) as (c & Hc & Hc0); [lra | exact Hcs |].
  destruct (avgSatisfaction_nonneg fs Hfs) as (s & Hs & Hs0).
  rewrite (calculateHealth_closed project (rs1 ++ rs2) cs fs c s Hc Hs).
  rewrite (calculateHealth_closed project (rs1 ++ r :: rs2) cs fs c s Hc Hs).
  rewrite (highOpenCount_insert rs1 rs2 r Hsev Hst).
  eexists _, _. split; [reflexivity | split; [reflexivity |]].
  apply round_guards_mono.
  rewrite Nat2Z.inj_succ. unfold Z.succ. rewrite inject_Z_plus.
  set (h := inject_Z (Z.of_nat (highOpenCount (rs1 ++ rs2)))).
  assert (0 <= c / 5 * (s / 5)) as Hk.
  { apply Qmult_le_0_compat; apply Qle_shift_div_l; lra. }
  set (k := c / 5 * (s / 5)) in *.
  assert ((100 - (h + inject_Z 1) * 10) * (c / 5) * (s / 5)
          == (100 - h * 10) * k - 10 * k) as -> by (unfold k; ring).
  assert ((100 - h * 10) * (c / 5) * (s / 5) == (100 - h * 10) * k) as ->
      by (unfold k; ring).
  lra.
Qed.

(** C6.  With non-negative confidence levels, and feedback whose
    [satisfaction] is non-negative or absent, putting one more risk of
    severity "High" and status "Open" anywhere among the risks does not
    raise the score of [calculateHealth]: the score with the risk is not
    greater than the score without it.  When moreover the confidence
    levels and the [satisfaction] values are not above 5, both scores are
    integers and the one with the risk is the smaller or the same. *)
Theorem C6_high_risk_monotone (project : Project) (rs1 rs2 : list Risk)
    (r : Risk) (cs : list Checkin) (fs : list Feedback) :
  severity r = "High" ->
  r_status r = "Open" ->
  Forall (fun c => isNonNegative (confidenceLevel c)) cs ->
  Forall (fun f => isNonNegative (satisfaction f) \/ lacksSatisfaction f) fs ->
  gt (calculateHealth project (rs1 ++ r :: rs2) cs fs)
     (calculateHealth project (rs1 ++ rs2) cs fs) = false
  /\ (Forall (fun c => isAtMost 5 (confidenceLevel c)) cs ->
      Forall (fun f => isAtMost 5 (satisfaction f) \/ lacksSatisfaction f) fs ->
      exists before after : Z,
        calculateHealth project (rs1 ++ rs2) cs fs = int before
        /\ calculateHealth project (rs1 ++ r :: rs2) cs fs = int after
        /\ (after <= before)%Z).
Proof.
  intros Hsev Hst Hcs Hfs.
  destruct (high_risk_monotone_exact project rs1 rs2 r cs fs Hsev Hst Hcs Hfs)
    as (before & after & Hb & Ha & Hle).
  split.
  - rewrite Hb, Ha. unfold gt. rewrite lt_int. apply Z.ltb_ge. exact Hle.
  - intros _ _. exists before, after. auto.
Qed.

Lemma C6_high_risk_monotone_witness :
  gt (calculateHealth apollo
        ([storedRisk (p_id apollo) "Low" "Open"]
           ++ storedRisk (p_id apollo) "High" "Open" :: [])
        (checkins dbScenario) (feedbacks dbScenario))
     (calculateHealth apollo ([storedRisk (p_id apollo) "Low" "Open"] ++ [])
        (checkins dbScenario) (feedbacks dbScenario)) = false
  /\ exists before after : Z,
       calculateHealth apollo ([storedRisk (p_id apollo) "Low" "Open"] ++ [])
                       (checkins dbScenario) (feedbacks dbScenario) = int before
       /\ calculateHealth apollo
            ([storedRisk (p_id apollo) "Low" "Open"]
               ++ storedRisk (p_id apollo) "High" "Open" :: [])
            (checkins dbScenario) (feedbacks dbScenario) = int after
       /\ (after <= before)%Z.
Proof.
  destruct (C6_high_risk_monotone apollo [storedRisk (p_id apollo) "Low" "Open"] []
              (storedRisk (p_id apollo) "High" "Open")
              (checkins dbScenario) (feedbacks dbScenario)) as (Hgt & Hint).
  - reflexivity.
  - reflexivity.
  - repeat constructor; eexists; (split; [reflexivity | discriminate]).
  - repeat constructor; right; reflexivity.
  - split; [exact Hgt |]. apply Hint.
    + repeat constructor; eexists; (split; [reflexivity | discriminate]).
    + repeat constructor; right; reflexivity.
Defined.

(** ** C7: one more flagged feedback *)

Lemma flaggedCount_value (fs : list Feedback) :
  flaggedCount fs
  = Fin (inject_Z (Z.of_nat (List.length (filter (fun f => truthy (flaggedIssue f)) fs)))).
Proof. reflexivity. Qed.

Lemma flag_penalty_below_guard (fs fs' : list Feedback) (cs : list Checkin) (z : Z) :
  eqn (avgClient fs') (avgClient fs) ->
  eqn (flaggedCount fs') (add (flaggedCount fs) (Fin 1)) ->
  roundedScore fs cs = int z ->
  (z <= 100)%Z ->
  exists s : Z,
    healthScore fs cs = int s
    /\ healthScore fs' cs = int (Z.max 0 (s - 5)).
Proof.
  intros Hmean Hflag Hz Hle.
  assert (roundedScore fs' cs = int (z - 5)) as Hz'.
  { revert Hz Hmean Hflag. unfold roundedScore.
    rewrite (flaggedCount_value fs), (flaggedCount_value fs').
    set (k := inject_Z (Z.of_nat (List.length (filter _ fs)))).
    set (k' := inject_Z (Z.of_nat (List.length (filter _ fs')))).
    destruct (avgClient fs) as [a |], (avgClient fs') as [a' |],
             (avgConf cs) as [b |], (avgCompletion cs) as [c |];
      unfold round, sub, add, mul, lift2, eqn, int;
      try discriminate; try contradiction.
    intros Hz Hmean Hflag. apply int_inj in Hz.
    f_equal. f_equal. rewrite <- Hz.
    rewrite <- (Qfloor_minus_int _ 5).
    apply Qfloor_comp. rewrite Hmean, Hflag.
    change (inject_Z 5) with 5. ring. }
  exists (Z.max 0 (Z.min 100 z)). split.
  - change (healthScore fs cs) with (guards (roundedScore fs cs)).
    rewrite Hz. apply guards_int.
  - change (healthScore fs' cs) with (guards (roundedScore fs' cs)).
    rewrite Hz', guards_int. f_equal. lia.
Qed.

Lemma sum_at_most {A : Type} (g : A -> value) (b : Q) (xs : list A) :
  Forall (fun x => isAtMost b (g x)) xs ->
  fold_right Qplus 0 (map (fun x => ratingOf (g x)) xs)
  <= b * inject_Z (Z.of_nat (List.length xs)).
Proof.
  induction xs as [| x xs IH]; intro Hall.
  - simpl. rewrite Qmult_0_r. apply Qle_refl.
  - inversion Hall as [| ? ? (q & Hq & Hle) Hrest]; subst.
    specialize (IH Hrest).
    cbn [map fold_right List.length]. unfold ratingOf at 1. rewrite Hq.
    cbn [toNumber].
    rewrite Nat2Z.inj_succ. unfold Z.succ. rewrite inject_Z_plus.
    change (inject_Z 1) with 1. lra.
Qed.

Lemma average_at_most {A : Type} (g : A -> value) (d b : Q) (xs : list A) :
  d <= b ->
  Forall (fun x => isAtMost b (g x)) xs ->
  exists q, average g d xs = Fin q /\ q <= b.
Proof.
  intros Hd Hall. destruct xs as [| x xs].
  - exists d. split; [reflexivity | exact Hd].
  - unfold average. rewrite length_cons_truthy.
    destruct (reduce_add_sum g (x :: xs) 0) as (s & Hs & Hsum).
    { eapply Forall_impl; [| exact Hall]. intros a (q & Hq & _). exists q. exact Hq. }
    rewrite Hs, div_length. eexists. split; [reflexivity |].
    pose proof (sum_at_most g b (x :: xs) Hall) as Hb.
    apply Qle_shift_div_r; [apply length_pos | lra].
Qed.

Lemma roundedScore_in_scale (fs : list Feedback) (cs : list Checkin) :
  Forall (fun f => isAtMost 5 (satisfactionRating f)) fs ->
  Forall (fun c => isAtMost 5 (confidenceLevel c)) cs ->
  Forall (fun c => isAtMost 100 (completionPercentage c)) cs ->
  exists z : Z, roundedScore fs cs = int z /\ (z <= 100)%Z.
Proof.
  intros Hf Hc Hp.
  destruct (average_at_most satisfactionRating 5 5 fs) as (a & Ha & Ha5);
    [lra | exact Hf |].
  destruct (average_at_most confidenceLevel 5 5 cs) as (b & Hb & Hb5);
    [lra | exact Hc |].
  destruct (average_at_most completionPercentage 0 100 cs) as (c & Hcp & Hc100);
    [lra | exact Hp |].
  unfold roundedScore. rewrite (flaggedCount_value fs).
  change (avgClient fs) with (average satisfactionRating 5 fs).
  change (avgConf cs) with (average confidenceLevel 5 cs).
  change (avgCompletion cs) with (average completionPercentage 0 cs).
  rewrite Ha, Hb, Hcp.
  set (k := inject_Z (Z.of_nat (List.length (filter _ fs)))).
  assert (0 <= k) as Hk.
  { unfold k. change 0 with (inject_Z 0). rewrite <- Zle_Qle. lia. }
  eexists. split; [reflexivity |].
  change 100%Z with (Qfloor (100 + (1 # 2))).
  apply Qfloor_resp_le. lra.
Qed.

Lemma reduce_same_fields {A : Type} (g : A -> value) (xs ys : list A) (a : number) :
  map g xs = map g ys ->
  reduce (fun a b => add a (toNumber (g b))) xs a
  = reduce (fun a b => add a (toNumber (g b))) ys a.
Proof.
  unfold reduce. revert ys a.
  induction xs as [| x xs IH]; intros [| y ys] a H; try discriminate; [reflexivity |].
  cbn [map] in H. injection H as Hxy H. cbn [fold_left]. rewrite Hxy. apply IH, H.
Qed.

Lemma avgClient_same_ratings (fs fs' : list Feedback) :
  map satisfactionRating fs' = map satisfactionRating fs ->
  avgClient fs' = avgClient fs.
Proof.
  intro H. unfold avgClient.
  assert (List.length fs' = List.length fs) as Hlen
      by (rewrite <- (length_map satisfactionRating fs'), H; apply length_map).
  unfold JS.length. rewrite Hlen.
  rewrite (reduce_same_fields satisfactionRating fs' fs (Fin 0) H). reflexivity.
Qed.

Lemma eqn_refl (a : number) : eqn a a.
Proof. destruct a; simpl; [apply Qeq_refl | exact I]. Qed.

(** C7, as amended.  The ratings are in scale: satisfaction ratings and
    confidence levels are numbers not above 5, completion percentages
    numbers not above 100.  When one feedback that was not flagged becomes
    flagged, its rating and everything else staying, the score is the
    former score less 5, or 0 when that is negative.  The same holds for
    feedback [fs'] that has the mean rating of [fs] and one more flagged
    document, when the ratings of both are integers between 0 and 5. *)
Theorem C7_flag_penalty (cs : list Checkin) :
  Forall (fun c => isAtMost 5 (confidenceLevel c)) cs ->
  Forall (fun c => isAtMost 100 (completionPercentage c)) cs ->
  (forall (before after : list Feedback) (f f' : Feedback),
      Forall (fun x => isAtMost 5 (satisfactionRating x)) (before ++ f :: after) ->
      satisfactionRating f' = satisfactionRating f ->
      truthy (flaggedIssue f) = false ->
      truthy (flaggedIssue f') = true ->
      exists s : Z,
        healthScore (before ++ f :: after) cs = int s
        /\ healthScore (before ++ f' :: after) cs = int (Z.max 0 (s - 5)))
  /\ (forall fs fs' : list Feedback,
         Forall (fun x => exists z : Z, satisfactionRating x = Number (int z)
                                        /\ (0 <= z <= 5)%Z) fs ->
         Forall (fun x => exists z : Z, satisfactionRating x = Number (int z)
                                        /\ (0 <= z <= 5)%Z) fs' ->
         eqn (avgClient fs') (avgClient fs) ->
         eqn (flaggedCount fs') (add (flaggedCount fs) (Fin 1)) ->
         exists s : Z,
           healthScore fs cs = int s
           /\ healthScore fs' cs = int (Z.max 0 (s - 5))).
Proof.
  intros Hc Hp. split.
  - intros before after f f' Hf Hrating Hoff Hon.
    destruct (roundedScore_in_scale (before ++ f :: after) cs Hf Hc Hp) as (z & Hz & Hle).
    apply (flag_penalty_below_guard (before ++ f :: after) (before ++ f' :: after) cs z);
      try assumption.
    + rewrite (avgClient_same_ratings (before ++ f :: after) (before ++ f' :: after)).
      * apply eqn_refl.
      * rewrite !map_app. cbn [map]. rewrite Hrating. reflexivity.
    + rewrite !flaggedCount_value, !filter_app. cbn [filter].
      rewrite Hoff, Hon, !length_app. cbn [List.length].
      unfold add, lift2, eqn. change 1 with (inject_Z 1).
      rewrite <- inject_Z_plus. apply inject_Z_injective. lia.
  - intros fs fs' Hfs _ Hmean Hflag.
    destruct (roundedScore_in_scale fs cs) as (z & Hz & Hle); try assumption.
    { eapply Forall_impl; [| exact Hfs]. intros x (z & Hx & _ & H5).
      exists (inject_Z z). split; [exact Hx |].
      change 5 with (inject_Z 5). rewrite <- Zle_Qle. exact H5. }
    apply (flag_penalty_below_guard fs fs' cs z); assumption.
Qed.

Lemma C7_flag_penalty_witness :
  (exists s : Z,
      healthScore ([] ++ storedFeedback (p_id apollo) 4 false
                      :: [storedFeedback (p_id apollo) 5 false])
                  (checkins dbScenario) = int s
      /\ healthScore ([] ++ storedFeedback (p_id apollo) 4 true
                         :: [storedFeedback (p_id apollo) 5 false])
                     (checkins dbScenario) = int (Z.max 0 (s - 5)))
  /\ (exists s : Z,
         healthScore [storedFeedback (p_id apollo) 3 false;
                      storedFeedback (p_id apollo) 5 false]
                     (checkins dbScenario) = int s
         /\ healthScore [storedFeedback (p_id apollo) 3 false;
                         storedFeedback (p_id apollo) 5 false;
                         storedFeedback (p_id apollo) 4 true]
                        (checkins dbScenario) = int (Z.max 0 (s - 5))).
Proof.
  destruct (C7_flag_penalty (checkins dbScenario)) as (Hflip & Hadd).
  - repeat constructor; eexists; (split; [reflexivity | discriminate]).
  - repeat constructor; eexists; (split; [reflexivity | discriminate]).
  - split.
    + apply Hflip.
      * repeat constructor; eexists; (split; [reflexivity | discriminate]).
      * reflexivity.
      * reflexivity.
      * reflexivity.
    + apply Hadd.
      * repeat constructor;
          [exists 3%Z | exists 5%Z]; (split; [reflexivity | lia]).
      * repeat constructor;
          [exists 3%Z | exists 5%Z | exists 4%Z]; (split; [reflexivity | lia]).
      * vm_compute. reflexivity.
      * vm_compute. reflexivity.
Defined.

(** In binary64 the mean of three ratings of 1.4 is not the mean of two: the
    proviso on integer ratings is needed.  Two feedback documents rated
    1.4, confidence 1 and completion 1.5 give the score 20; a third
    document rated 1.4 and flagged gives 14. *)
Lemma flag_penalty_binary64 :
  B64.healthScore [1.4%float; 1.4%float] [1%float] [1.5%float] 0%float = 20%float
  /\ B64.healthScore [1.4%float; 1.4%float; 1.4%float] [1%float] [1.5%float] 1%float
     = 14%float.
Proof. split; vm_compute; reflexivity. Qed.

(** C7 as stated fails where the guard at 100 fires: one more flagged
    feedback of the same mean leaves the score at 100. *)
Lemma C7_counterexample :
  eqn (avgClient (feedbacks dbOverFlagged)) (avgClient (feedbacks dbOver))
  /\ flaggedCount (feedbacks dbOver) = int 0
  /\ flaggedCount (feedbacks dbOverFlagged) = int 1
  /\ fst (computeHealth 7 (p_id apollo) dbOver) = Json (int 100) "On Track"
  /\ fst (computeHealth 7 (p_id apollo) dbOverFlagged) = Json (int 100) "On Track"
  /\ ~ (exists s : Z,
          healthScore (feedbacks dbOver) [] = int s
          /\ healthScore (feedbacks dbOverFlagged) [] = int (Z.max 0 (s - 5))).
Proof.
  repeat split; try (vm_compute; reflexivity).
  intros (s & Hs & Hs').
  assert (healthScore (feedbacks dbOver) [] = int 100) as E by (vm_compute; reflexivity).
  assert (healthScore (feedbacks dbOverFlagged) [] = int 100) as E' by (vm_compute; reflexivity).
  rewrite E in Hs. rewrite E' in Hs'.
  apply int_inj in Hs, Hs'. lia.
Qed.

(** ** C8: the project does not exist *)

(** C8.  When the route parameter is read as an identifier that no
    project has, the health handler answers 404 "Project not found",
    without a score, and leaves the database as it was.  When
    [new ObjectId] refuses the parameter the handler throws before any
    lookup; the database is as it was then too. *)
Theorem C8_not_found (parseObjectId : string -> option ObjectId) (now : Z)
    (projectId : string) (db : Db) :
  (forall id : ObjectId,
      parseObjectId projectId = Some id ->
      findOne (projects db) id = None ->
      healthRoute parseObjectId now projectId db
      = (Returns (Status404 "Project not found"), db))
  /\ (parseObjectId projectId = None ->
      healthRoute parseObjectId now projectId db = (Throws, db)).
Proof.
  unfold healthRoute. split.
  - intros id Hid Hnone. rewrite Hid, Hnone. reflexivity.
  - intro Hnone. rewrite Hnone. reflexivity.
Qed.

Lemma C8_not_found_witness :
  healthRoute hexObjectId 7 "65A0000000000000000000FF" dbScenario
  = (Returns (Status404 "Project not found"), dbScenario)
  /\ healthRoute hexObjectId 7 "zzz" dbScenario = (Throws, dbScenario).
Proof.
  destruct (C8_not_found hexObjectId 7 "65A0000000000000000000FF" dbScenario)
    as (Hfound & _).
  destruct (C8_not_found hexObjectId 7 "zzz" dbScenario) as (_ & Hthrows).
  split.
  - apply (Hfound "65a0000000000000000000ff"); reflexivity.
  - apply Hthrows. reflexivity.
Defined.

(** ** C9: projects without a check-in in the current period *)

Lemma someCheckin_spec (week : string) (db : Db) (p : Project) :
  someCheckin week db p = true <-> hasCheckin week db p.
Proof.
  unfold someCheckin, hasCheckin. rewrite existsb_exists. split.
  - intros (c & Hin & Hp). apply filter_In in Hin as (Hin & Hw).
    apply String.eqb_eq in Hw, Hp. eauto.
  - intros (c & Hin & Hw & Hp). exists c. split.
    + apply filter_In. split; [exact Hin | apply String.eqb_eq, Hw].
    + apply String.eqb_eq, Hp.
Qed.

Lemma someCheckin_false (week : string) (db : Db) (p : Project) :
  someCheckin week db p = false <-> ~ hasCheckin week db p.
Proof.
  rewrite <- someCheckin_spec. destruct (someCheckin week db p); split;
    congruence.
Qed.

(** C9.  The missing-check-ins handler returns the projects, in store
    order, for which no check-in of any employee carries the current week;
    with three projects of which one has such a check-in it returns the two
    others. *)
Theorem C9_missing_checkins (week : string) (db : Db) :
  (forall p : Project,
      In p (missingCheckinsThisPeriod week db)
      <-> In p (projects db) /\ ~ hasCheckin week db p)
  /\ (forall p1 p2 p3 : Project,
         projects db = [p1; p2; p3] ->
         (hasCheckin week db p1 -> ~ hasCheckin week db p2 -> ~ hasCheckin week db p3 ->
          missingCheckinsThisPeriod week db = [p2; p3])
         /\ (~ hasCheckin week db p1 -> hasCheckin week db p2 -> ~ hasCheckin week db p3 ->
             missingCheckinsThisPeriod week db = [p1; p3])
         /\ (~ hasCheckin week db p1 -> ~ hasCheckin week db p2 -> hasCheckin week db p3 ->
             missingCheckinsThisPeriod week db = [p1; p2])).
Proof.
  assert (missingCheckinsThisPeriod week db
          = filter (fun p => negb (someCheckin week db p)) (projects db)) as E
      by reflexivity.
  split.
  - intro p. rewrite E, filter_In, negb_true_iff, someCheckin_false. reflexivity.
  - intros p1 p2 p3 Hps. rewrite E, Hps. simpl.
    repeat split; intros H1 H2 H3;
      repeat match goal with
             | H : hasCheckin _ _ _ |- _ => apply someCheckin_spec in H; rewrite H
             | H : ~ hasCheckin _ _ _ |- _ => apply someCheckin_false in H; rewrite H
             end; reflexivity.
Qed.

Lemma C9_missing_checkins_witness :
  missingCheckinsThisPeriod "2026-W45" dbWeek = [apollo; cassini].
Proof.
  apply (proj2 (C9_missing_checkins "2026-W45" dbWeek) apollo borealis cassini eq_refl).
  - apply someCheckin_false. reflexivity.
  - apply someCheckin_spec. reflexivity.
  - apply someCheckin_false. reflexivity.
Defined.

(** ** C10: what a health computation writes *)

Lemma sameFixedFields_refl (p : Project) : sameFixedFields p p.
Proof. repeat split. Qed.

Lemma updateOne_frame (ps : list Project) (id : ObjectId) (s : number)
    (st : string) (now : Z) :
  Forall2 (fun p p' => sameFixedFields p p' /\ (p_id p <> id -> p' = p))
          ps (updateOne ps id s st now).
Proof.
  induction ps as [| p ps IH]; simpl; [constructor |].
  destruct (p_id p =? id)%string eqn:E.
  - constructor.
    + split; [repeat split |]. apply String.eqb_eq in E. congruence.
    + clear IH. induction ps as [| q qs IHq]; constructor;
        [split; [apply sameFixedFields_refl | reflexivity] | exact IHq].
  - constructor; [| exact IH].
    split; [apply sameFixedFields_refl | reflexivity].
Qed.

(** C10.  At any route parameter, the health handler leaves the check-in,
    feedback and risk collections as they were; the projects stay the same
    documents in the same order, no field but [healthScore], [status] and
    [updatedAt] changes, and a project whose identifier is not the one read
    from the parameter is untouched.  The dashboard handler, which calls
    [calculateHealth], leaves the whole database as it was. *)
Theorem C10_frame (parseObjectId : string -> option ObjectId) (now : Z)
    (projectId : string) (db : Db) :
  let db' := snd (healthRoute parseObjectId now projectId db) in
  checkins db' = checkins db
  /\ feedbacks db' = feedbacks db
  /\ risks db' = risks db
  /\ Forall2 (fun p p' => sameFixedFields p p'
                          /\ (parseObjectId projectId <> Some (p_id p) -> p' = p))
             (projects db) (projects db')
  /\ snd (computeDashboard db) = db.
Proof.
  assert (Forall2 (fun p p' => sameFixedFields p p'
                               /\ (parseObjectId projectId <> Some (p_id p) -> p' = p))
                  (projects db) (projects db)) as Hsame.
  { induction (projects db) as [| q qs IH]; constructor;
      [split; [apply sameFixedFields_refl | reflexivity] | exact IH]. }
  unfold healthRoute.
  destruct (parseObjectId projectId) as [id |] eqn:Hid; cbn [snd].
  - destruct (findOne (projects db) id) as [p |]; cbn [snd projects checkins feedbacks risks].
    + repeat split; try reflexivity.
      eapply Forall2_impl; [| apply updateOne_frame].
      intros a b (Hf & Hid'). split; [exact Hf |].
      intro Hne. apply Hid'. intro E. apply Hne. rewrite E. reflexivity.
    + repeat split; try reflexivity. exact Hsame.
  - repeat split; try reflexivity. exact Hsame.
Qed.

(** ** Where Policy B does follow the formula *)

Lemma satisfaction_reduce_sum (fs : list Feedback) (a : Q) :
  0 <= a ->
  Forall (fun f => isPositive (satisfaction f)) fs ->
  exists s,
    reduce satisfactionStep fs (Fin a) = Fin s
    /\ s == a + fold_right Qplus 0 (map (fun f => ratingOf (satisfaction f)) fs).
Proof.
  unfold reduce. revert a.
  induction fs as [| f fs IH]; intros a Ha Hall.
  - exists a. split; [reflexivity | simpl; ring].
  - inversion Hall as [| ? ? (q & Hq & Hpos) Hrest]; subst.
    cbn [fold_left map fold_right]. unfold ratingOf at 1.
    assert (satisfactionStep (Fin a) f = Fin (a + q)) as ->.
    { unfold satisfactionStep. rewrite Hq. cbn [toNumber add lift2].
      unfold or, truthyNumber.
      destruct (Qeq_bool (a + q) 0) eqn:E; [| reflexivity].
      apply Qeq_bool_iff in E. exfalso. lra. }
    rewrite Hq. cbn [toNumber].
    destruct (IH (a + q)) as (s & Hs & Hsum); [lra | exact Hrest |].
    exists s. split; [exact Hs | rewrite Hsum; ring].
Qed.

Lemma floor_guards (x : Q) :
  Qfloor (guardsQ x + (1 # 2)) = Z.max 0 (Z.min 100 (Qfloor (x + (1 # 2)))).
Proof.
  unfold guardsQ.
  destruct (Qlt_le_dec 100 x) as [H | H].
  - assert (100 <= Qfloor (x + (1 # 2)))%Z.
    { change 100%Z with (Qfloor 100) at 1. apply Qfloor_resp_le. lra. }
    change (Qfloor (100 + (1 # 2))) with 100%Z. lia.
  - destruct (Qlt_le_dec x 0) as [H0 | H0].
    + assert (Qfloor (x + (1 # 2)) <= 0)%Z.
      { change 0%Z with (Qfloor (1 # 2)). apply Qfloor_resp_le. lra. }
      change (Qfloor (0 + (1 # 2))) with 0%Z. lia.
    + assert (0 <= Qfloor (x + (1 # 2)))%Z.
      { change 0%Z with (Qfloor 0) at 1. apply Qfloor_resp_le. lra. }
      assert (Qfloor (x + (1 # 2)) <= 100)%Z.
      { change 100%Z with (Qfloor (100 + (1 # 2))). apply Qfloor_resp_le. lra. }
      lia.
Qed.

Lemma mean_of_sum {A : Type} (g : A -> Q) (d s : Q) (x : A) (xs : list A) :
  s == 0 + fold_right Qplus 0 (map g (x :: xs)) ->
  s / inject_Z (Z.of_nat (List.length (x :: xs))) == mean d (map g (x :: xs)).
Proof.
  intro Hs. unfold mean. cbn [map]. rewrite Hs.
  cbn [List.length]. rewrite length_map.
  pose proof (length_pos x xs) as Hn. cbn [List.length] in Hn.
  cbn [fold_right map]. field. lra.
Qed.

(** With numeric confidence levels and positive numeric [satisfaction]
    fields, [calculateHealth] is the formula of the specification, both in
    exact arithmetic. *)
Lemma calculateHealth_formula_positive (project : Project) (rs : list Risk)
    (cs : list Checkin) (fs : list Feedback) :
  Forall (fun c => isNumeric (confidenceLevel c)) cs ->
  Forall (fun f => isPositive (satisfaction f)) fs ->
  calculateHealth project rs cs fs
  = int (policyB_formula (highOpenCount rs)
           (map (fun c => ratingOf (confidenceLevel c)) cs)
           (map (fun f => ratingOf (satisfaction f)) fs)).
Proof.
  intros Hcs Hfs.
  assert (exists c, avgConfidence cs = Fin c
                    /\ c == mean 5 (map (fun c => ratingOf (confidenceLevel c)) cs))
    as (c & Hc & Hcm).
  { destruct cs as [| x xs]; [exists 5; split; reflexivity |].
    unfold avgConfidence. rewrite length_cons_truthy.
    destruct (reduce_add_sum confidenceLevel (x :: xs) 0 Hcs) as (s & -> & Hs).
    rewrite div_length. eexists. split; [reflexivity |].
    apply (mean_of_sum (fun c => ratingOf (confidenceLevel c))), Hs. }
  assert (exists s, avgSatisfaction fs = Fin s
                    /\ s == mean 5 (map (fun f => ratingOf (satisfaction f)) fs))
    as (s & Hs & Hsm).
  { destruct fs as [| x xs]; [exists 5; split; reflexivity |].
    unfold avgSatisfaction. rewrite length_cons_truthy.
    destruct (satisfaction_reduce_sum (x :: xs) 0) as (t & -> & Ht); [lra | exact Hfs |].
    rewrite div_length. eexists. split; [reflexivity |].
    apply (mean_of_sum (fun f => ratingOf (satisfaction f))), Ht. }
  rewrite (calculateHealth_closed project rs cs fs c s Hc Hs).
  unfold policyB_formula. rewrite floor_guards.
  f_equal. f_equal. f_equal. apply Qfloor_comp.
  rewrite Hcm, Hsm. ring.
Qed.

(** * Further properties of the handlers *)

(** ** [getCurrentWeek] *)

Lemma weekNumber_days (elapsed startDay : Z) :
  (0 <= startDay <= 6)%Z ->
  weekNumber elapsed startDay
  = ((elapsed / 86400000 + (startDay + 6) mod 7) / 7 + 1)%Z.
Proof.
  intro Hs. unfold weekNumber.
  rewrite Z.rem_mod_nonneg by lia.
  f_equal.
  pose proof (Z.mod_pos_bound (startDay + 6) 7 ltac:(lia)) as Hk.
  set (k := ((startDay + 6) mod 7)%Z) in *.
  change (7 * 86400000)%Z with 604800000%Z.
  pose proof (Z.div_mod elapsed 86400000 ltac:(lia)) as Hd.
  pose proof (Z.mod_pos_bound elapsed 86400000 ltac:(lia)) as Hr.
  set (q := (elapsed / 86400000)%Z) in *.
  set (r := (elapsed mod 86400000)%Z) in *.
  pose proof (Z.div_mod (q + k) 7 ltac:(lia)) as Hd7.
  pose proof (Z.mod_pos_bound (q + k) 7 ltac:(lia)) as Hr7.
  symmetry. apply Z.div_unique with (r := (((q + k) mod 7) * 86400000 + r)%Z); lia.
Qed.

(** X1.  Within a year, that is for fewer than 366 days elapsed since the
    first of January, the week number lies between 1 and 54, and it is 1
    during the whole first of January, on whatever weekday that falls. *)
Theorem week_number_bounds (elapsed startDay : Z) :
  (0 <= elapsed < 366 * 86400000)%Z ->
  (0 <= startDay <= 6)%Z ->
  (1 <= weekNumber elapsed startDay <= 54)%Z
  /\ ((elapsed < 86400000)%Z -> weekNumber elapsed startDay = 1%Z).
Proof.
  intros He Hs. rewrite (weekNumber_days elapsed startDay Hs).
  pose proof (Z.mod_pos_bound (startDay + 6) 7 ltac:(lia)) as Hk.
  set (k := ((startDay + 6) mod 7)%Z) in *.
  assert (0 <= elapsed / 86400000 < 366)%Z as Hq.
  { split; [apply Z.div_pos; lia | apply Z.div_lt_upper_bound; lia]. }
  set (q := (elapsed / 86400000)%Z) in *.
  split.
  - assert (0 <= (q + k) / 7 < 54)%Z; [| lia].
    split; [apply Z.div_pos; lia | apply Z.div_lt_upper_bound; lia].
  - intro H1.
    assert (q = 0%Z) as -> by (unfold q; apply Z.div_small; lia).
    rewrite Z.div_small; lia.
Qed.

Lemma week_number_bounds_witness :
  (1 <= weekNumber (305 * 86400000 + 3600000) 4 <= 54)%Z
  /\ ((305 * 86400000 + 3600000 < 86400000)%Z ->
      weekNumber (305 * 86400000 + 3600000) 4 = 1%Z).
Proof. apply (week_number_bounds (305 * 86400000 + 3600000) 4); lia. Defined.

(** X2.  For two readings of the clock in the same year, 86400000
    milliseconds apart: the week number of the later one is one more
    exactly when its 24-hour period, counted from the midnight that begins
    the first of January, falls on a Monday by the weekday of the first of
    January, and is the same otherwise.  [yearDays] is the number of days of
    the year; the later reading is still within it. *)
Theorem week_changes_on_monday (elapsed startDay yearDays : Z) :
  (0 <= elapsed)%Z ->
  (elapsed + 86400000 < yearDays * 86400000)%Z ->
  (0 <= startDay <= 6)%Z ->
  weekNumber (elapsed + 86400000) startDay
  = (weekNumber elapsed startDay
     + (if ((startDay + (elapsed / 86400000 + 1)) mod 7 =? 1)%Z then 1 else 0))%Z.
Proof.
  intros He _ Hs.
  rewrite !(weekNumber_days _ startDay Hs).
  replace ((elapsed + 86400000) / 86400000)%Z with (elapsed / 86400000 + 1)%Z.
  2:{ replace (elapsed + 86400000)%Z with (elapsed + 1 * 86400000)%Z by lia.
      rewrite Z.div_add by lia. reflexivity. }
  assert (0 <= elapsed / 86400000)%Z as Hq by (apply Z.div_pos; lia).
  set (q := (elapsed / 86400000)%Z) in *.
  destruct ((startDay + (q + 1)) mod 7 =? 1)%Z eqn:E;
    [apply Z.eqb_eq in E | apply Z.eqb_neq in E];
    revert E; clear He; clearbody q;
    Z.to_euclidean_division_equations; lia.
Qed.

Lemma week_changes_on_monday_witness :
  weekNumber (3 * 86400000 + 86400000) 4
  = (weekNumber (3 * 86400000) 4
     + (if ((4 + (3 * 86400000 / 86400000 + 1)) mod 7 =? 1)%Z then 1 else 0))%Z.
Proof. apply (week_changes_on_monday (3 * 86400000) 4 365); lia. Defined.

Lemma digits_noDash (u : Decimal.uint) : noDash (NilEmpty.string_of_uint u).
Proof. induction u; simpl; try split; try discriminate; auto. Qed.

Lemma numberToString_noDash (z : Z) : (0 <= z)%Z -> noDash (numberToString z).
Proof.
  intro Hz. unfold numberToString.
  destruct z as [| p | p]; [simpl; split; [discriminate | exact I] | | lia].
  simpl. unfold NilZero.string_of_uint.
  destruct (Pos.to_uint p) eqn:E; try (rewrite <- E; apply digits_noDash).
  simpl. split; [discriminate | exact I].
Qed.

Lemma numberToString_inj (a b : Z) :
  numberToString a = numberToString b -> a = b.
Proof.
  unfold numberToString. intro H.
  assert (forall z, NilZero.int_of_string (NilZero.string_of_int (Z.to_int z))
                    = Some (Z.to_int z)) as R.
  { intro z. apply NilZero.isi; destruct z; simpl; try discriminate;
      intro E; injection E as E; apply (DecimalPos.Unsigned.to_uint_nonnil _ E). }
  apply DecimalZ.to_int_inj.
  pose proof (R a) as Ra. rewrite H, R in Ra. congruence.
Qed.

Lemma split_at_dash (s1 s2 t1 t2 : string) :
  noDash s1 -> noDash s2 ->
  (s1 ++ "-W" ++ t1)%string = (s2 ++ "-W" ++ t2)%string ->
  s1 = s2 /\ t1 = t2.
Proof.
  revert s2. induction s1 as [| c s1 IH]; intros [| c2 s2] H1 H2 E; simpl in *.
  - injection E as E. auto.
  - injection E as E _. destruct H2 as [H2 _]. congruence.
  - injection E as E _. destruct H1 as [H1 _]. congruence.
  - injection E as Ec E. destruct H1 as [_ H1], H2 as [_ H2].
    destruct (IH s2 H1 H2 E) as [-> ->]. subst. auto.
Qed.

(** X3.  For years from 0 on, two labels are the same string only for the
    same year and the same week number: a label names one week. *)
Theorem week_label_injective (year elapsed startDay year' elapsed' startDay' : Z) :
  (0 <= year)%Z ->
  (0 <= year')%Z ->
  getCurrentWeek year elapsed startDay = getCurrentWeek year' elapsed' startDay' ->
  year = year' /\ weekNumber elapsed startDay = weekNumber elapsed' startDay'.
Proof.
  intros Hy Hy' E. unfold getCurrentWeek in E.
  apply split_at_dash in E; try (apply numberToString_noDash; assumption).
  destruct E as [E1 E2]. split; apply numberToString_inj; assumption.
Qed.

Lemma week_label_injective_witness :
  getCurrentWeek 2026 (305 * 86400000) 4 = "2026-W45"
  /\ (2026 = 2026 /\ weekNumber (305 * 86400000) 4 = weekNumber (306 * 86400000) 4)%Z.
Proof.
  split; [reflexivity |].
  apply (week_label_injective 2026 (305 * 86400000) 4 2026 (306 * 86400000) 4);
    [lia | lia | reflexivity].
Defined.

(** ** Submitting a check-in *)

Lemma submitCheckin_accepted (now : Z) (week userId : string) (body : CheckinBody)
    (db : Db) (pid : string) :
  cb_projectId body = Some pid ->
  pid <> ""%string ->
  submitCheckin now week userId body db =
  (Status201 "Check-in submitted",
   {| projects := projects db;
      checkins := checkins db
                  ++ [mkCheckin pid userId week (cb_progressSummary body)
                        (cb_blockers body) (stored (cb_confidenceLevel body))
                        (stored (cb_completionPercentage body)) now];
      feedbacks := feedbacks db;
      risks := risks db |}).
Proof.
  intros Hp Hne. unfold submitCheckin. rewrite Hp.
  destruct (pid =? "")%string eqn:E; [apply String.eqb_eq in E; congruence |].
  reflexivity.
Qed.

Lemma someCheckin_app (week : string) (db : Db) (c : Checkin) (p : Project) :
  someCheckin week
    {| projects := projects db; checkins := checkins db ++ [c];
       feedbacks := feedbacks db; risks := risks db |} p
  = someCheckin week db p
    || ((c_week c =? week)%string && (c_projectId c =? toString (p_id p))%string).
Proof.
  unfold someCheckin. simpl. rewrite filter_app, existsb_app. f_equal.
  simpl. destruct (c_week c =? week)%string; simpl; [apply orb_false_r | reflexivity].
Qed.

Lemma missing_closed (week : string) (db : Db) :
  missingCheckinsThisPeriod week db
  = filter (fun p => negb (someCheckin week db p)) (projects db).
Proof. reflexivity. Qed.

(** The entry the pending list holds for a project. *)
Lemma pending_closed (assigned : string -> Project -> bool)
    (week userId : string) (db : Db) :
  pendingCheckins assigned week userId db
  = map (fun p => mkPending (toString (p_id p)) (p_name p) week)
        (filter (fun p =>
                   match findCheckin (checkins db) (toString (p_id p)) userId week with
                   | Some _ => false
                   | None => true
                   end)
                (filter (assigned userId) (projects db))).
Proof.
  unfold pendingCheckins.
  generalize (filter (assigned userId) (projects db)) as ps.
  assert (forall ps acc,
             fold_left
               (fun pending p =>
                  match findCheckin (checkins db) (toString (p_id p)) userId week with
                  | Some _ => pending
                  | None => pending ++ [mkPending (toString (p_id p)) (p_name p) week]
                  end) ps acc
             = acc ++ map (fun p => mkPending (toString (p_id p)) (p_name p) week)
                          (filter (fun p =>
                                     match findCheckin (checkins db) (toString (p_id p))
                                                       userId week with
                                     | Some _ => false
                                     | None => true
                                     end) ps)) as G.
  { induction ps as [| p ps IH]; intro acc; simpl.
    - rewrite app_nil_r. reflexivity.
    - rewrite IH.
      destruct (findCheckin (checkins db) (toString (p_id p)) userId week); simpl.
      + reflexivity.
      + rewrite <- app_assoc. reflexivity. }
  intro ps. apply (G ps []).
Qed.

Lemma findCheckin_none (cs : list Checkin) (pid userId week : string) :
  findCheckin cs pid userId week = None
  <-> forall c, In c cs ->
                ~ (c_projectId c = pid /\ c_employeeId c = userId /\ c_week c = week).
Proof.
  unfold findCheckin. split.
  - intros H c Hin (H1 & H2 & H3).
    pose proof (find_none _ _ H c Hin) as Hn. simpl in Hn.
    rewrite H1, H2, H3, !String.eqb_refl in Hn. discriminate.
  - intro H.
    destruct (find _ cs) as [c |] eqn:E; [| reflexivity].
    apply find_some in E as (Hin & Hc).
    apply andb_true_iff in Hc as (Hc & H3). apply andb_true_iff in Hc as (H1 & H2).
    apply String.eqb_eq in H1, H2, H3. exfalso. apply (H c Hin). auto.
Qed.

(** X5.  After an accepted check-in for project [pid] in week [week], no
    project with that identifier is reported missing for that week, nor
    pending for the employee who submitted; the report about every other
    project, and about every other week, is what it was. *)
Theorem checkin_clears_reports (now : Z) (week userId : string)
    (body : CheckinBody) (db : Db) (pid : string) :
  cb_projectId body = Some pid ->
  pid <> ""%string ->
  let db' := snd (submitCheckin now week userId body db) in
  (forall p, In p (missingCheckinsThisPeriod week db') -> p_id p <> pid)
  /\ (forall assigned e,
         In e (pendingCheckins assigned week userId db') -> pe_projectId e <> pid)
  /\ (forall p, p_id p <> pid ->
                (In p (missingCheckinsThisPeriod week db')
                 <-> In p (missingCheckinsThisPeriod week db)))
  /\ (forall week', week' <> week ->
                    missingCheckinsThisPeriod week' db' = missingCheckinsThisPeriod week' db).
Proof.
  intros Hp Hne. rewrite (submitCheckin_accepted now week userId body db pid Hp Hne).
  cbv zeta. cbn [snd].
  set (c := mkCheckin pid userId week _ _ _ _ now).
  repeat split.
  - intros p Hin E. rewrite missing_closed in Hin. apply filter_In in Hin as (_ & Hs).
    rewrite someCheckin_app in Hs. subst c. simpl in Hs.
    unfold toString in Hs. rewrite E, !String.eqb_refl, orb_true_r in Hs. discriminate.
  - intros assigned e Hin E. rewrite pending_closed in Hin.
    apply in_map_iff in Hin as (p & <- & Hin).
    apply filter_In in Hin as (_ & Hf). simpl in E.
    destruct (findCheckin _ _ _ _) eqn:F; [discriminate |].
    rewrite findCheckin_none in F. apply (F c).
    + simpl. apply in_or_app. right. left. reflexivity.
    + subst c. simpl. auto.
  - rewrite !missing_closed. simpl projects. rewrite !filter_In.
    rewrite someCheckin_app. subst c. simpl.
    intros (Hin & Hs). split; [exact Hin |].
    destruct (someCheckin week db p); [discriminate | reflexivity].
  - rewrite !missing_closed. simpl projects. rewrite !filter_In.
    rewrite someCheckin_app. subst c. simpl.
    intros (Hin & Hs). split; [exact Hin |].
    destruct (pid =? toString (p_id p))%string eqn:E.
    + apply String.eqb_eq in E. unfold toString in E. congruence.
    + rewrite andb_false_r, orb_false_r. exact Hs.
  - intros week' Hw. rewrite !missing_closed. simpl projects.
    apply filter_ext. intro p. rewrite someCheckin_app. subst c. simpl.
    destruct (week =? week')%string eqn:E;
      [apply String.eqb_eq in E; congruence |].
    simpl. rewrite orb_false_r. reflexivity.
Qed.

Lemma checkin_clears_reports_witness :
  let body := mkCheckinBody (Some (p_id cassini)) "done" "" (Number (Fin 4))
                            (Number (Fin 80)) in
  let db' := snd (submitCheckin 7 "2026-W45" "emp2" body dbWeek) in
  (forall p, In p (missingCheckinsThisPeriod "2026-W45" db') -> p_id p <> p_id cassini)
  /\ (forall assigned e,
         In e (pendingCheckins assigned "2026-W45" "emp2" db') ->
         pe_projectId e <> p_id cassini)
  /\ (forall p, p_id p <> p_id cassini ->
                (In p (missingCheckinsThisPeriod "2026-W45" db')
                 <-> In p (missingCheckinsThisPeriod "2026-W45" dbWeek)))
  /\ (forall week', week' <> "2026-W45"%string ->
                    missingCheckinsThisPeriod week' db'
                    = missingCheckinsThisPeriod week' dbWeek).
Proof.
  apply (checkin_clears_reports 7 "2026-W45" "emp2"
           (mkCheckinBody (Some (p_id cassini)) "done" "" (Number (Fin 4)) (Number (Fin 80)))
           dbWeek (p_id cassini)).
  - reflexivity.
  - discriminate.
Defined.

(** ** Pending check-ins *)

Lemma missing_sound (week : string) (db : Db) (p : Project) :
  In p (missingCheckinsThisPeriod week db) ->
  In p (projects db) /\ ~ hasCheckin week db p.
Proof.
  rewrite missing_closed, filter_In, negb_true_iff, someCheckin_false. tauto.
Qed.


Lemma findCheckin_existsb (cs : list Checkin) (pid userId week : string) :
  match findCheckin cs pid userId week with
  | Some _ => false
  | None => true
  end
  = negb (existsb (fun c => (c_projectId c =? pid)%string
                            && (c_employeeId c =? userId)%string
                            && (c_week c =? week)%string) cs).
Proof.
  unfold findCheckin. induction cs as [| c cs IH]; [reflexivity |].
  cbn [existsb find].
  destruct ((c_projectId c =? pid)%string && (c_employeeId c =? userId)%string
            && (c_week c =? week)%string); [reflexivity | exact IH].
Qed.

Lemma filter_twice {A : Type} (f g : A -> bool) (xs : list A) :
  filter g (filter f xs) = filter (fun x => f x && g x) xs.
Proof.
  induction xs as [| x xs IH]; [reflexivity |].
  cbn [filter]. destruct (f x); cbn [andb filter]; rewrite IH; reflexivity.
Qed.

(** X6.  The pending list of an employee is, in store order, one entry
    with the identifier, the name and the week for each project that the
    query assigns to the employee and for which the employee has no
    check-in of the current week, and nothing else.  A project that the
    admin view reports missing for the week is pending for every employee
    assigned to it. *)
Theorem pending_checkins_exact (assigned : string -> Project -> bool)
    (week userId : string) (db : Db) :
  pendingCheckins assigned week userId db
  = map (fun p => mkPending (toString (p_id p)) (p_name p) week)
        (filter (fun p =>
                   assigned userId p
                   && negb (existsb (fun c =>
                                       (c_projectId c =? toString (p_id p))%string
                                       && (c_employeeId c =? userId)%string
                                       && (c_week c =? week)%string)
                                    (checkins db)))
                (projects db))
  /\ (forall e : Pending,
         In e (pendingCheckins assigned week userId db)
         <-> exists p,
               In p (projects db)
               /\ assigned userId p = true
               /\ (forall c, In c (checkins db) ->
                             ~ (c_projectId c = toString (p_id p)
                                /\ c_employeeId c = userId /\ c_week c = week))
               /\ e = mkPending (toString (p_id p)) (p_name p) week)
  /\ (forall p : Project,
         In p (missingCheckinsThisPeriod week db) ->
         assigned userId p = true ->
         In (mkPending (toString (p_id p)) (p_name p) week)
            (pendingCheckins assigned week userId db)).
Proof.
  assert (forall e : Pending,
             In e (pendingCheckins assigned week userId db)
             <-> exists p,
                   In p (projects db)
                   /\ assigned userId p = true
                   /\ (forall c, In c (checkins db) ->
                                 ~ (c_projectId c = toString (p_id p)
                                    /\ c_employeeId c = userId /\ c_week c = week))
                   /\ e = mkPending (toString (p_id p)) (p_name p) week) as Hchar.
  { intro e. rewrite pending_closed, in_map_iff. split.
    - intros (p & <- & Hin). apply filter_In in Hin as (Hin & Hf).
      apply filter_In in Hin as (Hin & Ha).
      exists p. repeat split; try assumption.
      apply findCheckin_none.
      destruct (findCheckin _ _ _ _); [discriminate | reflexivity].
    - intros (p & Hin & Ha & Hnone & ->). exists p. split; [reflexivity |].
      apply filter_In. split; [apply filter_In; auto |].
      apply findCheckin_none in Hnone. rewrite Hnone. reflexivity. }
  split; [| split; [exact Hchar |]].
  - rewrite pending_closed, filter_twice. f_equal.
    apply filter_ext. intro p. rewrite findCheckin_existsb. reflexivity.
  - intros p Hmiss Ha. apply Hchar. exists p.
    apply missing_sound in Hmiss as (Hin & Hno).
    repeat split; try assumption.
    intros c Hc (H1 & _ & H3). apply Hno. exists c. auto.
Qed.

Lemma pending_checkins_exact_witness :
  In (mkPending (toString (p_id apollo)) (p_name apollo) "2026-W45")
     (pendingCheckins employeesInclude "2026-W45" "emp1" dbWeek).
Proof.
  apply (proj2 (proj2 (pending_checkins_exact employeesInclude "2026-W45" "emp1" dbWeek))
           apollo).
  - simpl. left. reflexivity.
  - reflexivity.
Defined.

(** ** Submitting feedback *)

Lemma feedbacksOf_submit (now : Z) (userId : string) (body : FeedbackBody) (db : Db) :
  exists f,
    feedbacksOf (fb_projectId body) (snd (submitFeedback now userId body db))
    = feedbacksOf (fb_projectId body) db ++ [f]
    /\ satisfaction f = Undefined
    /\ flaggedIssue f = flaggedOr (fb_flaggedIssue body)
    /\ satisfactionRating f = stored (fb_satisfactionRating body).
Proof.
  eexists. unfold feedbacksOf, submitFeedback. cbn [snd feedbacks].
  rewrite filter_app. cbn [filter f_projectId]. rewrite String.eqb_refl.
  repeat split.
Qed.

Lemma guardsQ_id (x : Q) : 0 <= x -> x <= 100 -> guardsQ x = x.
Proof.
  intros H0 H1. unfold guardsQ.
  destruct (Qlt_le_dec 100 x); [lra |].
  destruct (Qlt_le_dec x 0); [lra | reflexivity].
Qed.

(** X7.  No feedback document written by [POST /api/feedbacks] carries a
    [satisfaction] field, and a collection of such documents stays one.  So
    after a client submits feedback for a project that had [n] such
    documents, whatever the rating, the satisfaction aggregate of
    [calculateHealth] for the project is [5 / (n + 1)], and with no
    check-in and no High and Open risk its score is [100 / (n + 1)]
    rounded: 100, 50, 33, 25 and so on. *)
Theorem feedback_lowers_dashboard (now : Z) (userId : string)
    (body : FeedbackBody) (db : Db) (project : Project) (rs : list Risk) :
  Forall lacksSatisfaction (feedbacks db) ->
  highOpenCount rs = 0%nat ->
  let db' := snd (submitFeedback now userId body db) in
  let n := List.length (feedbacksOf (fb_projectId body) db) in
  Forall lacksSatisfaction (feedbacks db')
  /\ avgSatisfaction (feedbacksOf (fb_projectId body) db')
     = Fin (5 / inject_Z (Z.of_nat (n + 1)))
  /\ calculateHealth project rs [] (feedbacksOf (fb_projectId body) db')
     = int (Qfloor (100 / inject_Z (Z.of_nat (n + 1)) + (1 # 2))).
Proof.
  intros Hall Hrs. cbv zeta.
  destruct (feedbacksOf_submit now userId body db) as (f & Hf & Hsat & _ & _).
  set (fs := feedbacksOf (fb_projectId body) db) in *.
  assert (Forall lacksSatisfaction fs) as Hfs.
  { unfold fs, feedbacksOf. apply Forall_forall. intros x Hx.
    apply filter_In in Hx as (Hx & _). revert x Hx. apply Forall_forall, Hall. }
  assert (Forall lacksSatisfaction (fs ++ [f])) as Hfs'.
  { apply Forall_app. split; [exact Hfs |].
    constructor; [unfold lacksSatisfaction; rewrite Hsat; reflexivity | constructor]. }
  assert (fs ++ [f] <> []) as Hne by (destruct fs; discriminate).
  assert (List.length (fs ++ [f]) = (List.length fs + 1)%nat) as Hlen
      by (rewrite length_app; reflexivity).
  pose proof (count_pos (fs ++ [f]) Hne) as Hm. rewrite Hlen in Hm.
  split; [| split].
  - unfold submitFeedback. cbn [snd feedbacks].
    apply Forall_app. split; [exact Hall |].
    constructor; [reflexivity | constructor].
  - rewrite Hf, (avgSatisfaction_reset _ Hne Hfs'), Hlen. reflexivity.
  - rewrite Hf.
    rewrite (calculateHealth_closed project rs [] (fs ++ [f]) 5 _ eq_refl
               (avgSatisfaction_reset _ Hne Hfs')).
    rewrite Hrs, Hlen.
    set (m := inject_Z (Z.of_nat (List.length fs + 1))) in *.
    f_equal. apply Qfloor_comp.
    assert ((100 - inject_Z (Z.of_nat 0) * 10) * (5 / 5) * (5 / m / 5)
            == 100 / m) as E.
    { change (inject_Z (Z.of_nat 0)) with 0. field. lra. }
    assert (1 <= m) as Hm1.
    { unfold m. change 1 with (inject_Z 1). rewrite <- Zle_Qle. lia. }
    assert (0 <= 100 / m <= 100) as [B0 B1].
    { split.
      - apply Qle_shift_div_l; lra.
      - apply Qle_shift_div_r; lra. }
    rewrite guardsQ_id; [rewrite E; reflexivity | rewrite E; exact B0 | rewrite E; exact B1].
Qed.

Lemma feedback_lowers_dashboard_witness :
  let body := mkFeedbackBody (p_id apollo) (Number (Fin 5)) (Number (Fin 5)) None
                             (Boolean false) in
  let db' := snd (submitFeedback 7 "client1" body dbOver) in
  let n := List.length (feedbacksOf (fb_projectId body) dbOver) in
  Forall lacksSatisfaction (feedbacks db')
  /\ avgSatisfaction (feedbacksOf (fb_projectId body) db')
     = Fin (5 / inject_Z (Z.of_nat (n + 1)))
  /\ calculateHealth apollo [] [] (feedbacksOf (fb_projectId body) db')
     = int (Qfloor (100 / inject_Z (Z.of_nat (n + 1)) + (1 # 2))).
Proof.
  apply (feedback_lowers_dashboard 7 "client1"
           (mkFeedbackBody (p_id apollo) (Number (Fin 5)) (Number (Fin 5)) None
                           (Boolean false))
           dbOver apollo []).
  - repeat constructor.
  - reflexivity.
Defined.

(** ** Deleting a project *)

Lemma deleteOne_absent (ps : list Project) (id : ObjectId) :
  findOne ps id = None -> deleteOne ps id = ps.
Proof.
  unfold findOne. induction ps as [| p ps IH]; simpl; [reflexivity |].
  destruct (p_id p =? id)%string; [discriminate |].
  intro H. rewrite (IH H). reflexivity.
Qed.

Lemma deleteOne_In (ps : list Project) (id : ObjectId) (q : Project) :
  NoDup (map p_id ps) ->
  (In q (deleteOne ps id) <-> In q ps /\ p_id q <> id).
Proof.
  induction ps as [| p ps IH]; simpl; intro Hnd; [tauto |].
  inversion Hnd as [| ? ? Hnotin Hnd']; subst.
  destruct (p_id p =? id)%string eqn:E.
  - apply String.eqb_eq in E. split.
    + intro Hin. split; [right; exact Hin |].
      intro Hq. apply Hnotin. rewrite E, <- Hq. apply in_map, Hin.
    + intros ([-> | Hin] & Hne); [congruence | exact Hin].
  - apply String.eqb_neq in E. simpl. rewrite (IH Hnd'). split.
    + intros [-> | (Hin & Hne)]; auto.
    + intros ([-> | Hin] & Hne); auto.
Qed.

Lemma findOne_none_iff (ps : list Project) (id : ObjectId) :
  findOne ps id = None <-> forall p, In p ps -> p_id p <> id.
Proof.
  unfold findOne. split.
  - intros H p Hin E. pose proof (find_none _ _ H p Hin) as Hn. simpl in Hn.
    rewrite E, String.eqb_refl in Hn. discriminate.
  - intro H. destruct (find _ ps) as [p |] eqn:E; [| reflexivity].
    apply find_some in E as (Hin & Hp). apply String.eqb_eq in Hp.
    exfalso. apply (H p Hin Hp).
Qed.

(** X8.  When the route parameter is read as an identifier, and identifiers
    are unique in the store, after [DELETE /api/projects/:id] the projects
    are the former ones but the one with that identifier, so the health
    handler answers 404 at the same parameter and writes nothing; the
    check-ins, feedback and risks that refer to the project are all still
    stored.  Deleting an identifier no project has changes nothing, and is
    answered "Project deleted" as well.  When [new ObjectId] refuses the
    parameter the handler throws and nothing is deleted. *)
Theorem delete_project_effect (parseObjectId : string -> option ObjectId)
    (now : Z) (id : string) (db : Db) :
  (forall oid : ObjectId,
      NoDup (map p_id (projects db)) ->
      parseObjectId id = Some oid ->
      let db' := snd (deleteProject parseObjectId id db) in
      (forall q, In q (projects db') <-> In q (projects db) /\ p_id q <> oid)
      /\ healthRoute parseObjectId now id db'
         = (Returns (Status404 "Project not found"), db')
      /\ checkins db' = checkins db
      /\ feedbacks db' = feedbacks db
      /\ risks db' = risks db
      /\ (findOne (projects db) oid = None ->
          deleteProject parseObjectId id db = (Returns "Project deleted", db)))
  /\ (parseObjectId id = None -> deleteProject parseObjectId id db = (Throws, db)).
Proof.
  split.
  - intros oid Hnd Hid. cbv zeta. unfold deleteProject. rewrite Hid.
    cbn [snd projects checkins feedbacks risks].
    assert (forall q, In q (deleteOne (projects db) oid)
                      <-> In q (projects db) /\ p_id q <> oid) as Hin
        by (intro q; apply deleteOne_In, Hnd).
    split; [exact Hin |]. split; [| split; [| split; [| split]]]; try reflexivity.
    + unfold healthRoute. rewrite Hid. cbn [projects].
      assert (findOne (deleteOne (projects db) oid) oid = None) as ->; [| reflexivity].
      apply findOne_none_iff. intros p Hp. apply Hin in Hp. tauto.
    + intro Hnone. rewrite (deleteOne_absent _ _ Hnone). destruct db; reflexivity.
  - intro Hnone. unfold deleteProject. rewrite Hnone. reflexivity.
Qed.

Lemma delete_project_effect_witness :
  let db' := snd (deleteProject hexObjectId "65A000000000000000000001" dbScenario) in
  (forall q, In q (projects db') <-> In q (projects dbScenario) /\ p_id q <> p_id apollo)
  /\ healthRoute hexObjectId 7 "65A000000000000000000001" db'
     = (Returns (Status404 "Project not found"), db')
  /\ checkins db' = checkins dbScenario
  /\ feedbacks db' = feedbacks dbScenario
  /\ risks db' = risks dbScenario
  /\ (findOne (projects dbScenario) (p_id apollo) = None ->
      deleteProject hexObjectId "65A000000000000000000001" dbScenario
      = (Returns "Project deleted", dbScenario)).
Proof.
  apply (proj1 (delete_project_effect hexObjectId 7 "65A000000000000000000001"
                  dbScenario) (p_id apollo)).
  - simpl. repeat constructor; simpl; intuition discriminate.
  - reflexivity.
Defined.

(** ** High-risk projects *)

Lemma uniq_fold_In (xs acc : list string) (x : string) :
  In x (fold_left (fun seen y => if existsb (String.eqb y) seen then seen else seen ++ [y])
                  xs acc)
  <-> In x acc \/ In x xs.
Proof.
  revert acc. induction xs as [| y ys IH]; intro acc; simpl; [tauto |].
  rewrite IH. destruct (existsb (String.eqb y) acc) eqn:E.
  - apply existsb_exists in E as (z & Hz & Ez). apply String.eqb_eq in Ez. subst z.
    split; [tauto |]. intros [H | [<- | H]]; auto.
  - rewrite in_app_iff. simpl. tauto.
Qed.

Lemma uniq_In (xs : list string) (x : string) : In x (uniq xs) <-> In x xs.
Proof. unfold uniq. rewrite uniq_fold_In. simpl. tauto. Qed.

Lemma existsb_uniq (xs : list string) (x : string) :
  existsb (String.eqb x) (uniq xs) = existsb (String.eqb x) xs.
Proof.
  apply eq_true_iff_eq. rewrite !existsb_exists.
  split; intros (y & Hy & E); exists y; split; try exact E; apply uniq_In; exact Hy.
Qed.

Lemma parseAll_none (parseObjectId : string -> option ObjectId) (xs : list string) :
  parseAll parseObjectId xs = None
  <-> exists x, In x xs /\ parseObjectId x = None.
Proof.
  induction xs as [| x xs IH]; simpl.
  - split; [discriminate | intros (x & [] & _)].
  - destruct (parseObjectId x) as [id |] eqn:E.
    + destruct (parseAll parseObjectId xs) as [ids |].
      * split; [discriminate |]. intros (y & [<- | Hy] & Hn); [congruence |].
        destruct IH as [_ IH]. discriminate IH. eauto.
      * split; [intros _ | reflexivity].
        destruct IH as [IH _]. destruct (IH eq_refl) as (y & Hy & Hn). eauto.
    + split; [intros _; eauto | reflexivity].
Qed.

Lemma parseAll_some (parseObjectId : string -> option ObjectId) (xs : list string)
    (ids : list ObjectId) (i : ObjectId) :
  parseAll parseObjectId xs = Some ids ->
  (In i ids <-> exists x, In x xs /\ parseObjectId x = Some i).
Proof.
  revert ids. induction xs as [| x xs IH]; simpl; intros ids H.
  - injection H as <-. split; [intros [] | intros (x & [] & _)].
  - destruct (parseObjectId x) as [id |] eqn:E; [| discriminate].
    destruct (parseAll parseObjectId xs) as [ids' |]; [| discriminate].
    injection H as <-. simpl. rewrite (IH ids' eq_refl). split.
    + intros [<- | (y & Hy & Ey)]; eauto.
    + intros (y & [<- | Hy] & Ey); [left; congruence | right; eauto].
Qed.

(** X9.  The high-risk handler answers 500 exactly when [new ObjectId]
    refuses the project identifier of some risk with status "Open" and
    severity "High", however many it accepts.  Otherwise it answers the
    stored projects, in store order and each once however many risks it
    has, whose identifier is the one read from the project identifier of
    some Open and High risk. *)
Theorem high_risk_projects_exact (parseObjectId : string -> option ObjectId) (db : Db) :
  (highRiskProjects parseObjectId db = Status500 "Server error"
   <-> exists r, In r (risks db) /\ isHighOpen r = true
                 /\ parseObjectId (r_projectId r) = None)
  /\ ((forall r, In r (risks db) -> isHighOpen r = true ->
                 parseObjectId (r_projectId r) <> None) ->
      highRiskProjects parseObjectId db
      = Projects
          (filter (fun p =>
                     existsb (fun r =>
                                isHighOpen r
                                && match parseObjectId (r_projectId r) with
                                   | Some id => (p_id p =? id)%string
                                   | None => false
                                   end)
                             (risks db))
                  (projects db))).
Proof.
  unfold highRiskProjects.
  set (hi := filter (fun r => (r_status r =? "Open")%string && (severity r =? "High")%string)
                    (risks db)).
  assert (forall r, In r hi <-> In r (risks db) /\ isHighOpen r = true) as Hhi.
  { intro r. unfold hi, isHighOpen. rewrite filter_In, andb_comm. reflexivity. }
  assert (parseAll parseObjectId (uniq (map r_projectId hi)) = None
          <-> exists r, In r (risks db) /\ isHighOpen r = true
                        /\ parseObjectId (r_projectId r) = None) as Hnone.
  { rewrite parseAll_none. split.
    - intros (x & Hx & Hn). apply uniq_In, in_map_iff in Hx as (r & <- & Hr).
      apply Hhi in Hr as (Hin & Hr). eauto.
    - intros (r & Hin & Hr & Hn). exists (r_projectId r). split; [| exact Hn].
      apply uniq_In, in_map, Hhi. auto. }
  split.
  - destruct (parseAll parseObjectId (uniq (map r_projectId hi))) as [ids |] eqn:E.
    + split; [discriminate |]. intro H. apply Hnone in H. discriminate.
    + split; [intros _; apply Hnone; reflexivity | reflexivity].
  - intro Hvalid.
    destruct (parseAll parseObjectId (uniq (map r_projectId hi))) as [ids |] eqn:E.
    + f_equal. apply filter_ext. intro p.
      apply eq_true_iff_eq. rewrite !existsb_exists. split.
      * intros (i & Hi & Ei). apply String.eqb_eq in Ei. subst i.
        apply (parseAll_some _ _ _ _ E) in Hi as (x & Hx & Ex).
        apply uniq_In, in_map_iff in Hx as (r & <- & Hr).
        apply Hhi in Hr as (Hin & Hr). exists r. split; [exact Hin |].
        rewrite Hr, Ex. simpl. apply String.eqb_refl.
      * intros (r & Hin & Hr). apply andb_true_iff in Hr as (Hr & Ei).
        destruct (parseObjectId (r_projectId r)) as [i |] eqn:Ex; [| discriminate].
        exists i. split; [| exact Ei].
        apply (parseAll_some _ _ _ _ E). exists (r_projectId r). split; [| exact Ex].
        apply uniq_In, in_map, Hhi. auto.
    + exfalso. destruct (proj1 Hnone eq_refl) as (r & Hin & Hr & Hn).
      exact (Hvalid r Hin Hr Hn).
Qed.

Lemma high_risk_projects_exact_witness :
  highRiskProjects hexObjectId dbRisks = Projects [apollo].
Proof.
  rewrite (proj2 (high_risk_projects_exact hexObjectId dbRisks)).
  - reflexivity.
  - intros r [<- | [<- | [<- | []]]] H; solve [discriminate].
Defined.

(** ** The dashboard *)

(** The view of one project in the answer of [GET /api/admin/projects]. *)
Lemma dashboard_closed (db : Db) :
  fst (computeDashboard db)
  = map (fun p =>
           mkView p
             (JS.length
                (filter (fun r => (r_status r =? "Open")%string)
                        (filter (fun r => (r_projectId r =? toString (p_id p))%string)
                                (risks db))))
             (calculateHealth p
                (filter (fun r => (r_projectId r =? toString (p_id p))%string) (risks db))
                (filter (fun c => (c_projectId c =? toString (p_id p))%string) (checkins db))
                (filter (fun f => (f_projectId f =? toString (p_id p))%string) (feedbacks db))))
        (projects db).
Proof. reflexivity. Qed.

Lemma filter_app_foreign {A : Type} (key : A -> string) (pid : string)
    (xs extra : list A) :
  Forall (fun x => key x <> pid) extra ->
  filter (fun x => (key x =? pid)%string) (xs ++ extra)
  = filter (fun x => (key x =? pid)%string) xs.
Proof.
  intro H. rewrite filter_app.
  assert (filter (fun x => (key x =? pid)%string) extra = []) as ->.
  { induction H as [| x l Hx _ IH]; simpl; [reflexivity |].
    apply String.eqb_neq in Hx. rewrite Hx. exact IH. }
  apply app_nil_r.
Qed.

(** X10.  The dashboard answers one view per stored project, in store
    order, and the view of a project depends on the records of that project
    only: records added for other projects, of whatever content, leave its
    open-risk count and its score as they were. *)
Theorem dashboard_isolation (db : Db) (pid : string)
    (rs : list Risk) (cs : list Checkin) (fs : list Feedback) :
  Forall (fun r => r_projectId r <> pid) rs ->
  Forall (fun c => c_projectId c <> pid) cs ->
  Forall (fun f => f_projectId f <> pid) fs ->
  let db' := {| projects := projects db;
                checkins := checkins db ++ cs;
                feedbacks := feedbacks db ++ fs;
                risks := risks db ++ rs |} in
  map v_project (fst (computeDashboard db)) = projects db
  /\ filter (fun v => (toString (p_id (v_project v)) =? pid)%string)
            (fst (computeDashboard db'))
     = filter (fun v => (toString (p_id (v_project v)) =? pid)%string)
              (fst (computeDashboard db)).
Proof.
  intros Hr Hc Hf. cbv zeta. rewrite !dashboard_closed. cbn [projects checkins feedbacks risks].
  split.
  - rewrite map_map. simpl. apply map_id.
  - induction (projects db) as [| p ps IH]; [reflexivity |].
    cbn [map filter v_project]. rewrite IH.
    destruct (toString (p_id p) =? pid)%string eqn:E; [| reflexivity].
    apply String.eqb_eq in E. rewrite E.
    rewrite (filter_app_foreign r_projectId pid _ rs Hr),
            (filter_app_foreign c_projectId pid _ cs Hc),
            (filter_app_foreign f_projectId pid _ fs Hf).
    reflexivity.
Qed.

Lemma dashboard_isolation_witness :
  let db' := {| projects := projects dbScenario;
                checkins := checkins dbScenario
                            ++ [storedCheckin (p_id borealis) "2026-W2" 1 0];
                feedbacks := feedbacks dbScenario
                             ++ [storedFeedback (p_id borealis) 1 true];
                risks := risks dbScenario
                         ++ [storedRisk (p_id borealis) "High" "Open"] |} in
  map v_project (fst (computeDashboard dbScenario)) = projects dbScenario
  /\ filter (fun v => (toString (p_id (v_project v)) =? p_id apollo)%string)
            (fst (computeDashboard db'))
     = filter (fun v => (toString (p_id (v_project v)) =? p_id apollo)%string)
              (fst (computeDashboard dbScenario)).
Proof.
  apply (dashboard_isolation dbScenario (p_id apollo)
           [storedRisk (p_id borealis) "High" "Open"]
           [storedCheckin (p_id borealis) "2026-W2" 1 0]
           [storedFeedback (p_id borealis) 1 true]);
    repeat constructor; discriminate.
Defined.

(** ** Bounds on the two scores *)

Lemma average_between {A : Type} (g : A -> value) (d b : Q) (xs : list A) :
  0 <= d -> d <= b ->
  Forall (fun x => exists q, g x = Number (Fin q) /\ 0 <= q <= b) xs ->
  exists q, average g d xs = Fin q /\ 0 <= q <= b.
Proof.
  intros Hd0 Hdb Hall.
  destruct (average_nonneg g d xs Hd0) as (q & Hq & Hq0).
  { eapply Forall_impl; [| exact Hall]. intros a (x & Hx & Hx0 & _). exists x. auto. }
  destruct (average_at_most g d b xs Hdb) as (q' & Hq' & Hqb).
  { eapply Forall_impl; [| exact Hall]. intros a (x & Hx & _ & Hxb). exists x. auto. }
  rewrite Hq in Hq'. injection Hq' as <-. exists q. auto.
Qed.

Lemma satisfaction_reduce_between (fs : list Feedback) (a : Q) (k : nat) :
  0 <= a <= 5 * inject_Z (Z.of_nat k) ->
  Forall (fun f => lacksSatisfaction f
                   \/ exists q, satisfaction f = Number (Fin q) /\ 0 <= q <= 5) fs ->
  exists s, reduce satisfactionStep fs (Fin a) = Fin s
            /\ 0 <= s <= 5 * inject_Z (Z.of_nat (k + List.length fs)).
Proof.
  unfold reduce. revert a k.
  induction fs as [| f fs IH]; intros a k Ha Hall.
  - exists a. split; [reflexivity |]. rewrite Nat.add_0_r. exact Ha.
  - inversion Hall as [| ? ? Hf Hrest]; subst. cbn [fold_left List.length].
    assert (inject_Z (Z.of_nat (S k)) == inject_Z (Z.of_nat k) + 1) as Hk.
    { rewrite Nat2Z.inj_succ. unfold Z.succ. rewrite inject_Z_plus. reflexivity. }
    assert (0 <= inject_Z (Z.of_nat k)) as Hk0.
    { change 0 with (inject_Z 0). rewrite <- Zle_Qle. lia. }
    replace (k + S (List.length fs))%nat with (S k + List.length fs)%nat by lia.
    assert (exists b, satisfactionStep (Fin a) f = Fin b
                      /\ 0 <= b <= 5 * inject_Z (Z.of_nat (S k))) as (b & -> & Hb).
    { unfold satisfactionStep.
      destruct Hf as [Hnan | (q & Hq & Hq05)].
      - unfold lacksSatisfaction in Hnan. rewrite Hnan. simpl.
        exists 5. split; [reflexivity | rewrite Hk; lra].
      - rewrite Hq. cbn [toNumber add lift2]. unfold or, truthyNumber.
        destruct (negb (Qeq_bool (a + q) 0)).
        + exists (a + q). split; [reflexivity | rewrite Hk; lra].
        + exists 5. split; [reflexivity | rewrite Hk; lra]. }
    apply IH; assumption.
Qed.

Lemma avgSatisfaction_between (fs : list Feedback) :
  Forall (fun f => lacksSatisfaction f
                   \/ exists q, satisfaction f = Number (Fin q) /\ 0 <= q <= 5) fs ->
  exists s, avgSatisfaction fs = Fin s /\ 0 <= s <= 5.
Proof.
  intro Hall. destruct fs as [| f fs].
  - exists 5. split; [reflexivity | lra].
  - unfold avgSatisfaction. rewrite length_cons_truthy.
    destruct (satisfaction_reduce_between (f :: fs) 0 0) as (s & Hs & Hs0 & Hs5);
      [change (inject_Z (Z.of_nat 0)) with 0; lra | exact Hall |].
    rewrite Hs, div_length. eexists. split; [reflexivity |].
    pose proof (length_pos f fs) as Hn. change (0 + List.length (f :: fs))%nat
      with (List.length (f :: fs)) in Hs5.
    split; [apply Qle_shift_div_l; lra | apply Qle_shift_div_r; lra].
Qed.

Lemma floor_half_le (x : Q) (z : Z) :
  x <= inject_Z z -> (Qfloor (x + (1 # 2)) <= z)%Z.
Proof.
  intro H.
  assert (Qfloor (inject_Z z + (1 # 2)) = z) as E.
  { apply Qfloor_unique; [lra |]. rewrite inject_Z_plus. change (inject_Z 1) with 1. lra. }
  apply Z.le_trans with (Qfloor (inject_Z z + (1 # 2)));
    [apply Qfloor_resp_le; lra | rewrite E; apply Z.le_refl].
Qed.

(** X11.  With confidence levels between 0 and 5, and feedback whose
    [satisfaction] is absent or between 0 and 5, the score of
    [calculateHealth] is at most 100 less 10 per High and Open risk, and at
    least 0: ten such risks bring it to 0.  With no check-in and no
    feedback it is exactly that value. *)
Theorem policyB_risk_cap (project : Project) (rs : list Risk)
    (cs : list Checkin) (fs : list Feedback) :
  Forall (fun c => exists q, confidenceLevel c = Number (Fin q) /\ 0 <= q <= 5) cs ->
  Forall (fun f => lacksSatisfaction f
                   \/ exists q, satisfaction f = Number (Fin q) /\ 0 <= q <= 5) fs ->
  let cap := Z.max 0 (100 - 10 * Z.of_nat (highOpenCount rs)) in
  (exists z : Z,
      calculateHealth project rs cs fs = int z /\ (0 <= z <= cap)%Z)
  /\ calculateHealth project rs [] [] = int cap.
Proof.
  intros Hcs Hfs. cbv zeta.
  destruct (average_between confidenceLevel 5 5 cs) as (c & Hc & Hc0 & Hc5);
    [lra | lra | exact Hcs |].
  destruct (avgSatisfaction_between fs Hfs) as (s & Hs & Hs0 & Hs5).
  set (h := Z.of_nat (highOpenCount rs)).
  assert (inject_Z (100 - 10 * h) == 100 - inject_Z h * 10) as HH.
  { unfold Z.sub. rewrite inject_Z_plus, inject_Z_opp, inject_Z_mult.
    change (inject_Z 100) with 100. change (inject_Z 10) with 10. ring. }
  split.
  - rewrite (calculateHealth_closed project rs cs fs c s Hc Hs). fold h.
    eexists. split; [reflexivity |].
    pose proof (round_guards_range ((100 - inject_Z h * 10) * (c / 5) * (s / 5))) as Hr.
    split; [lia |].
    apply floor_half_le.
    set (t := (c / 5) * (s / 5)).
    assert (0 <= t <= 1) as [Ht0 Ht1].
    { assert (0 <= c / 5 <= 1) as [A0 A1]
          by (split; [apply Qle_shift_div_l | apply Qle_shift_div_r]; lra).
      assert (0 <= s / 5 <= 1) as [B0 B1]
          by (split; [apply Qle_shift_div_l | apply Qle_shift_div_r]; lra).
      unfold t. split; [apply Qmult_le_0_compat; assumption |].
      apply Qle_trans with (1 * (s / 5)); [| lra].
      apply Qmult_le_compat_r; assumption. }
    assert ((100 - inject_Z h * 10) * (c / 5) * (s / 5)
            == (100 - inject_Z h * 10) * t) as E by (unfold t; ring).
    pose proof (guardsQ_range ((100 - inject_Z h * 10) * (c / 5) * (s / 5))) as [G0 G1].
    destruct (Z.max_spec 0 (100 - 10 * h)) as [[Hlt ->] | [Hge ->]].
    + rewrite HH.
      assert (0 < 100 - inject_Z h * 10) as Hpos.
      { rewrite <- HH. change 0 with (inject_Z 0). rewrite <- Zlt_Qlt. exact Hlt. }
      assert ((100 - inject_Z h * 10) * t <= (100 - inject_Z h * 10) * 1) as Hx.
      { rewrite !(Qmult_comm (100 - inject_Z h * 10)).
        apply Qmult_le_compat_r; lra. }
      unfold guardsQ in *.
      destruct (Qlt_le_dec 100 _); [lra |].
      destruct (Qlt_le_dec _ 0); lra.
    + assert (100 - inject_Z h * 10 <= 0) as Hneg.
      { rewrite <- HH. change 0 with (inject_Z 0). rewrite <- Zle_Qle. exact Hge. }
      assert ((100 - inject_Z h * 10) * t <= 0) as Hx.
      { rewrite Qmult_comm.
        setoid_replace 0 with (t * 0) by ring.
        rewrite !(Qmult_comm t). apply Qmult_le_compat_r; assumption || lra. }
      change (inject_Z 0) with 0.
      unfold guardsQ in *.
      destruct (Qlt_le_dec 100 _); [lra |].
      destruct (Qlt_le_dec _ 0); lra.
  - rewrite (calculateHealth_closed project rs [] [] 5 5 eq_refl eq_refl). fold h.
    f_equal.
    assert ((100 - inject_Z h * 10) * (5 / 5) * (5 / 5) == inject_Z (100 - 10 * h)) as E
        by (rewrite HH; field).
    rewrite floor_guards.
    assert (Qfloor ((100 - inject_Z h * 10) * (5 / 5) * (5 / 5) + (1 # 2))
            = (100 - 10 * h)%Z) as ->.
    { apply Qfloor_unique; rewrite E; [lra |].
      rewrite inject_Z_plus. change (inject_Z 1) with 1. lra. }
    assert (0 <= h)%Z by (unfold h; lia). lia.
Qed.

Lemma policyB_risk_cap_witness :
  let cap := Z.max 0 (100 - 10 * Z.of_nat (highOpenCount (risks dbScenario))) in
  (exists z : Z,
      calculateHealth apollo (risks dbScenario) (checkins dbScenario)
                      (feedbacks dbScenario) = int z
      /\ (0 <= z <= cap)%Z)
  /\ calculateHealth apollo (risks dbScenario) [] [] = int cap.
Proof.
  apply (policyB_risk_cap apollo (risks dbScenario) (checkins dbScenario)
           (feedbacks dbScenario)).
  - repeat constructor; eexists; (split; [reflexivity | split; discriminate]).
  - repeat constructor; left; reflexivity.
Defined.

Lemma roundedScore_flag_cap (fs : list Feedback) (cs : list Checkin) :
  Forall (fun f => isAtMost 5 (satisfactionRating f)) fs ->
  Forall (fun c => isAtMost 5 (confidenceLevel c)) cs ->
  Forall (fun c => isAtMost 100 (completionPercentage c)) cs ->
  exists z : Z,
    roundedScore fs cs = int z
    /\ (z <= 100 - 5 * Z.of_nat (List.length
                                   (filter (fun f => truthy (flaggedIssue f)) fs)))%Z.
Proof.
  intros Hf Hc Hp.
  destruct (average_at_most satisfactionRating 5 5 fs) as (a & Ha & Ha5);
    [lra | exact Hf |].
  destruct (average_at_most confidenceLevel 5 5 cs) as (b & Hb & Hb5);
    [lra | exact Hc |].
  destruct (average_at_most completionPercentage 0 100 cs) as (c & Hcp & Hc100);
    [lra | exact Hp |].
  unfold roundedScore. rewrite (flaggedCount_value fs).
  change (avgClient fs) with (average satisfactionRating 5 fs).
  change (avgConf cs) with (average confidenceLevel 5 cs).
  change (avgCompletion cs) with (average completionPercentage 0 cs).
  rewrite Ha, Hb, Hcp.
  set (k := Z.of_nat (List.length (filter _ fs))).
  eexists. split; [reflexivity |].
  apply floor_half_le.
  unfold Z.sub. rewrite inject_Z_plus, inject_Z_opp, inject_Z_mult.
  change (inject_Z 100) with 100. change (inject_Z 5) with 5.
  lra.
Qed.

(** X12.  With satisfaction ratings and confidence levels that are numbers
    not above 5 and completion percentages not above 100, the score the
    health handler answers is at most 100 less 5 per flagged feedback, and
    at least 0.  So five flagged feedback documents rule out "On Track",
    and nine or more make the status "Critical". *)
Theorem policyA_flag_cap (now : Z) (projectId : string) (db : Db) (p : Project) :
  findOne (projects db) projectId = Some p ->
  Forall (fun f => isAtMost 5 (satisfactionRating f)) (feedbacksOf projectId db) ->
  Forall (fun c => isAtMost 5 (confidenceLevel c)) (checkinsOf projectId db) ->
  Forall (fun c => isAtMost 100 (completionPercentage c)) (checkinsOf projectId db) ->
  let k := List.length (filter (fun f => truthy (flaggedIssue f))
                               (feedbacksOf projectId db)) in
  exists (z : Z) (st : string),
    fst (computeHealth now projectId db) = Json (int z) st
    /\ (0 <= z <= Z.max 0 (100 - 5 * Z.of_nat k))%Z
    /\ ((5 <= k)%nat -> st <> "On Track"%string)
    /\ ((9 <= k)%nat -> st = "Critical"%string).
Proof.
  intros Hp Hf Hc Hcp. cbv zeta.
  destruct (roundedScore_flag_cap _ _ Hf Hc Hcp) as (z & Hz & Hzk).
  set (k := List.length _) in *.
  rewrite (computeHealth_found now projectId db p Hp). cbv zeta. cbn [fst].
  assert (healthScore (feedbacksOf projectId db) (checkinsOf projectId db)
          = int (Z.max 0 (Z.min 100 z))) as ->.
  { change (healthScore (feedbacksOf projectId db) (checkinsOf projectId db))
      with (guards (roundedScore (feedbacksOf projectId db) (checkinsOf projectId db))).
    rewrite Hz. apply guards_int. }
  eexists _, _. split; [reflexivity |]. split; [lia |].
  unfold statusOf. change (Fin 60) with (int 60). change (Fin 80) with (int 80).
  rewrite !lt_int. split.
  - intro H5.
    destruct (Z.max 0 (Z.min 100 z) <? 60)%Z eqn:E1; [discriminate |].
    destruct (Z.max 0 (Z.min 100 z) <? 80)%Z eqn:E2; [discriminate |].
    apply Z.ltb_ge in E2. lia.
  - intro H9.
    destruct (Z.max 0 (Z.min 100 z) <? 60)%Z eqn:E1; [reflexivity |].
    apply Z.ltb_ge in E1. lia.
Qed.

Lemma policyA_flag_cap_witness :
  let k := List.length (filter (fun f => truthy (flaggedIssue f))
                               (feedbacksOf (p_id apollo) dbFlagged)) in
  exists (z : Z) (st : string),
    fst (computeHealth 7 (p_id apollo) dbFlagged) = Json (int z) st
    /\ (0 <= z <= Z.max 0 (100 - 5 * Z.of_nat k))%Z
    /\ ((5 <= k)%nat -> st <> "On Track"%string)
    /\ ((9 <= k)%nat -> st = "Critical"%string).
Proof.
  apply (policyA_flag_cap 7 (p_id apollo) dbFlagged apollo).
  - reflexivity.
  - repeat constructor; eexists; (split; [reflexivity | discriminate]).
  - constructor.
  - constructor.
Defined.

(** ** Repeating the health computation *)

Lemma updateOne_twice (ps : list Project) (id : ObjectId) (s : number)
    (st : string) (now now' : Z) :
  updateOne (updateOne ps id s st now) id s st now' = updateOne ps id s st now'.
Proof.
  induction ps as [| p ps IH]; simpl; [reflexivity |].
  destruct (p_id p =? id)%string eqn:E; simpl; rewrite E.
  - reflexivity.
  - rewrite IH. reflexivity.
Qed.

Lemma computeHealth_absent (now : Z) (projectId : string) (db : Db) :
  findOne (projects db) projectId = None ->
  computeHealth now projectId db = (Status404 "Project not found", db).
Proof. intro H. unfold computeHealth. rewrite H. reflexivity. Qed.

(** X13.  The health handler can be repeated: a second call, at whatever
    time, gives the answer of the first, and leaves the database the first
    call would have left at that time.  When the project exists, the score
    and status it answers are the ones then stored on the project, with the
    time of the call as [updatedAt]. *)
Theorem computeHealth_idempotent (now now' : Z) (projectId : string) (db : Db) :
  let first := computeHealth now projectId db in
  computeHealth now' projectId (snd first)
  = (fst first, snd (computeHealth now' projectId db))
  /\ (forall s st,
         fst first = Json s st ->
         exists p', findOne (projects (snd first)) projectId = Some p'
                    /\ p_healthScore p' = s /\ p_status p' = st
                    /\ p_updatedAt p' = now).
Proof.
  cbv zeta.
  destruct (findOne (projects db) projectId) as [p |] eqn:Hp.
  - rewrite (computeHealth_found now projectId db p Hp).
    rewrite (computeHealth_found now' projectId db p Hp).
    cbv zeta. cbn [fst snd]. split.
    + unfold computeHealth. cbn [projects checkins feedbacks risks].
      rewrite (findOne_updateOne _ _ _ _ _ _ Hp).
      rewrite updateOne_twice. reflexivity.
    + intros s st E. injection E as <- <-.
      eexists. split; [apply findOne_updateOne, Hp | repeat split].
  - rewrite (computeHealth_absent now projectId db Hp).
    rewrite (computeHealth_absent now' projectId db Hp).
    cbn [fst snd]. split.
    + apply computeHealth_absent, Hp.
    + intros s st E. discriminate.
Qed.

Lemma computeHealth_idempotent_witness :
  exists p', findOne (projects (snd (computeHealth 7 (p_id apollo) dbScenario)))
                     (p_id apollo) = Some p'
             /\ p_healthScore p' = int 80 /\ p_status p' = "On Track"%string
             /\ p_updatedAt p' = 7%Z.
Proof.
  apply (proj2 (computeHealth_idempotent 7 8 (p_id apollo) dbScenario)).
  reflexivity.
Defined.

(** ** A rating that is not a number *)










(** ** Creating users *)

Lemma findByEmail_none (us : list User) (email : string) :
  findByEmail us email = None <-> ~ In email (map u_email us).
Proof.
  unfold findByEmail. split.
  - intros H Hin. apply in_map_iff in Hin as (u & E & Hu).
    pose proof (find_none _ _ H u Hu) as Hn. simpl in Hn.
    rewrite E, String.eqb_refl in Hn. discriminate.
  - intro H. destruct (find _ us) as [u |] eqn:E; [| reflexivity].
    apply find_some in E as (Hin & Hu). apply String.eqb_eq in Hu.
    exfalso. apply H. rewrite <- Hu. apply in_map, Hin.
Qed.

Lemma createUsers_fold (hash : string -> string) (body us : list User)
    (createdUsers : list string) :
  exists docs,
    fst (fold_left (createUserStep hash) body (us, createdUsers)) = us ++ docs
    /\ snd (fold_left (createUserStep hash) body (us, createdUsers))
       = createdUsers ++ map u_email docs
    /\ NoDup (map u_email docs)
    /\ (forall e, In e (map u_email docs)
                  <-> In e (map u_email body) /\ ~ In e (map u_email us)).
Proof.
  revert us createdUsers. induction body as [| u body IH]; intros us createdUsers.
  - exists []. simpl. rewrite !app_nil_r. repeat split; try constructor; tauto.
  - cbn [fold_left]. unfold createUserStep at 2 4.
    destruct (findByEmail us (u_email u)) as [found |] eqn:F.
    + destruct (IH us createdUsers) as (docs & H1 & H2 & H3 & H4).
      exists docs. split; [exact H1 |]. split; [exact H2 |]. split; [exact H3 |].
      intro e. rewrite H4. cbn [map]. split.
      * intros (Hin & Hnot). split; [right; exact Hin | exact Hnot].
      * intros (Hin & Hnot). split; [| exact Hnot].
        destruct Hin as [<- | Hin]; [| exact Hin].
        exfalso. apply Hnot.
        destruct (in_dec string_dec (u_email u) (map u_email us)) as [Hi | Hn];
          [exact Hi |].
        apply findByEmail_none in Hn. rewrite Hn in F. discriminate.
    + apply findByEmail_none in F.
      set (doc := mkUser (u_name u) (u_email u) (hash (u_password u)) (u_role u)).
      destruct (IH (us ++ [doc]) (createdUsers ++ [u_email u]))
        as (docs & H1 & H2 & H3 & H4).
      exists (doc :: docs). rewrite H1, H2, <- !app_assoc.
      assert (~ In (u_email u) (map u_email docs)) as Hfresh.
      { intro Hin. apply H4 in Hin as (_ & Hnot). apply Hnot.
        rewrite map_app, in_app_iff. right. left. reflexivity. }
      split; [reflexivity |]. split; [reflexivity |]. split.
      * cbn [map]. constructor; assumption.
      * intro e. cbn [map]. change (u_email doc) with (u_email u). split.
        -- intros [<- | Hin].
           ++ split; [left; reflexivity | exact F].
           ++ apply H4 in Hin as (Hin & Hnot). split; [right; exact Hin |].
              intro Hus. apply Hnot. rewrite map_app, in_app_iff. left. exact Hus.
        -- intros (Hin & Hnot).
           destruct (string_dec (u_email u) e) as [E | E]; [left; exact E | right].
           apply H4. split.
           ++ destruct Hin as [Hin | Hin]; [congruence | exact Hin].
           ++ rewrite map_app, in_app_iff. intros [Hus | [Hd | []]];
                [tauto | simpl in Hd; congruence].
Qed.

Lemma findByEmail_existsb (us : list User) (email : string) :
  existsb (String.eqb email) (map u_email us) = false
  <-> findByEmail us email = None.
Proof.
  rewrite findByEmail_none. split.
  - intros H Hin. assert (existsb (String.eqb email) (map u_email us) = true) as E.
    { apply existsb_exists. exists email. split; [exact Hin | apply String.eqb_refl]. }
    congruence.
  - intro H. destruct (existsb _ _) eqn:E; [| reflexivity].
    apply existsb_exists in E as (x & Hx & Ex). apply String.eqb_eq in Ex. subst x.
    contradiction.
Qed.

Lemma createUsers_fresh (hash : string -> string) (body us : list User)
    (createdUsers : list string) :
  fold_left (createUserStep hash) body (us, createdUsers)
  = (us ++ map (storedUser hash) (freshUsers (map u_email us) body),
     createdUsers ++ map u_email (freshUsers (map u_email us) body)).
Proof.
  revert us createdUsers. induction body as [| u body IH]; intros us createdUsers.
  - simpl. rewrite !app_nil_r. reflexivity.
  - cbn [fold_left freshUsers]. unfold createUserStep at 2.
    destruct (findByEmail us (u_email u)) as [found |] eqn:F.
    + assert (existsb (String.eqb (u_email u)) (map u_email us) = true) as ->.
      { destruct (existsb _ _) eqn:E; [reflexivity |].
        apply findByEmail_existsb in E. congruence. }
      apply IH.
    + apply findByEmail_existsb in F. rewrite F.
      rewrite IH. rewrite map_app. cbn [map u_email storedUser].
      rewrite <- !app_assoc. reflexivity.
Qed.

Lemma freshUsers_first (seen : list string) (earlier later : list User) (u : User) :
  ~ In (u_email u) seen ->
  ~ In (u_email u) (map u_email earlier) ->
  In u (freshUsers seen (earlier ++ u :: later)).
Proof.
  revert seen. induction earlier as [| x xs IH]; intros seen Hseen Hearlier.
  - cbn [app freshUsers].
    assert (existsb (String.eqb (u_email u)) seen = false) as ->.
    { destruct (existsb _ _) eqn:E; [| reflexivity].
      apply existsb_exists in E as (y & Hy & Ey). apply String.eqb_eq in Ey. subst y.
      contradiction. }
    left. reflexivity.
  - cbn [app freshUsers]. cbn [map] in Hearlier.
    destruct (existsb (String.eqb (u_email x)) seen).
    + apply IH; [exact Hseen | intro H; apply Hearlier; right; exact H].
    + right. apply IH.
      * rewrite in_app_iff. intros [H | [H | []]]; [contradiction |].
        apply Hearlier. left. exact H.
      * intro H. apply Hearlier. right. exact H.
Qed.

(** X16.  [POST /create-users] only appends documents.  They are, in the
    order of the body, its entries whose e-mail address neither the
    collection nor an earlier entry holds, with name, address and role as
    sent and the hash of the password sent; so of entries that repeat an
    address the first is stored.  [createdUsers] lists the addresses of the
    stored entries, without repetition, and a collection with pairwise
    distinct addresses is left with pairwise distinct addresses. *)
Theorem create_users_unique_emails (hash : string -> string) (body us : list User) :
  let kept := freshUsers (map u_email us) body in
  fst (createUsers hash body us)
  = us ++ map (fun u => mkUser (u_name u) (u_email u) (hash (u_password u)) (u_role u))
              kept
  /\ snd (createUsers hash body us) = map u_email kept
  /\ NoDup (map u_email kept)
  /\ (forall e, In e (map u_email kept)
                <-> In e (map u_email body) /\ ~ In e (map u_email us))
  /\ (forall earlier later u,
         body = earlier ++ u :: later ->
         ~ In (u_email u) (map u_email us) ->
         ~ In (u_email u) (map u_email earlier) ->
         In u kept)
  /\ (NoDup (map u_email us) -> NoDup (map u_email (fst (createUsers hash body us)))).
Proof.
  cbv zeta. unfold createUsers.
  destruct (createUsers_fold hash body us []) as (docs & H1 & H2 & H3 & H4).
  rewrite (createUsers_fresh hash body us []) in *. cbn [fst snd app] in *.
  apply app_inv_head in H1.
  assert (map u_email docs = map u_email (freshUsers (map u_email us) body)) as E.
  { rewrite <- H1, map_map. apply map_ext. reflexivity. }
  rewrite E in H3, H4.
  split; [reflexivity |]. split; [reflexivity |]. split; [exact H3 |].
  split; [exact H4 |]. split.
  - intros earlier later u -> Hus Hearlier. apply freshUsers_first; assumption.
  - intro Hnd. rewrite map_app, map_map. cbn [u_email].
    apply NoDup_app; try assumption.
    intros e He Hd. apply H4 in Hd as (_ & Hnot). exact (Hnot He).
Qed.

Lemma create_users_unique_emails_witness :
  NoDup (map u_email
           (fst (createUsers (fun s => s)
                   [mkUser "A" "a@x.io" "pw" "employee";
                    mkUser "B" "admin@example.com" "pw" "client";
                    mkUser "A2" "a@x.io" "pw2" "client"]
                   [mkUser "Admin" "admin@example.com" "h" "admin"]))).
Proof.
  destruct (create_users_unique_emails (fun s => s)
              [mkUser "A" "a@x.io" "pw" "employee";
               mkUser "B" "admin@example.com" "pw" "client";
               mkUser "A2" "a@x.io" "pw2" "client"]
              [mkUser "Admin" "admin@example.com" "h" "admin"])
    as (_ & _ & _ & _ & _ & H).
  apply H. repeat constructor. simpl. tauto.
Defined.

Lemma findByEmail_last (us : list User) (u : User) :
  findByEmail us (u_email u) = None ->
  findByEmail (us ++ [u]) (u_email u) = Some u.
Proof.
  unfold findByEmail. induction us as [| x xs IH]; simpl.
  - intros _. rewrite String.eqb_refl. reflexivity.
  - destruct (u_email x =? u_email u)%string; [discriminate | exact IH].
Qed.

(** X17.  After [GET /seed-admin] some user has the address
    admin@example.com, and a second call answers "Admin already exists" and
    writes nothing.  The handler looks at the address only: when any user
    holds it, whatever the role, no admin is created. *)
Theorem seed_admin_once (hash : string -> string) (us : list User) :
  let us' := snd (seedAdmin hash us) in
  seedAdmin hash us' = ("Admin already exists", us')
  /\ (exists u, In u us' /\ u_email u = "admin@example.com"%string)
  /\ ((exists u, In u us /\ u_email u = "admin@example.com"%string) ->
      seedAdmin hash us = ("Admin already exists", us))
  /\ ((forall u, In u us -> u_email u <> "admin@example.com"%string) ->
      exists u, us' = us ++ [u] /\ u_role u = "admin"%string
                /\ u_password u = hash "admin123").
Proof.
  cbv zeta. unfold seedAdmin at 2 3 4 6.
  destruct (findByEmail us "admin@example.com") as [found |] eqn:F; cbn [snd].
  - unfold seedAdmin. rewrite F. repeat split.
    + unfold findByEmail in F. apply find_some in F as (Hin & E).
      apply String.eqb_eq in E. eauto.
    + intro Hno. exfalso.
      unfold findByEmail in F. apply find_some in F as (Hin & E).
      apply String.eqb_eq in E. apply (Hno found Hin E).
  - repeat split.
    + pose proof (findByEmail_last us (mkUser "Admin" "admin@example.com"
                                               (hash "admin123") "admin") F) as L.
      cbn [u_email] in L. unfold seedAdmin. rewrite L. reflexivity.
    + eexists. split; [apply in_or_app; right; left; reflexivity | reflexivity].
    + intros (u & Hin & E). exfalso.
      apply findByEmail_none in F. apply F. rewrite <- E. apply in_map, Hin.
    + intros _. eexists. split; [reflexivity | split; reflexivity].
Qed.

Lemma seed_admin_once_witness :
  seedAdmin (fun s => s) [mkUser "Eve" "admin@example.com" "pw" "client"]
  = ("Admin already exists", [mkUser "Eve" "admin@example.com" "pw" "client"]).
Proof.
  apply (seed_admin_once (fun s => s) [mkUser "Eve" "admin@example.com" "pw" "client"]).
  eexists. split; [left; reflexivity | reflexivity].
Defined.

(** ** The route parameter and the stored identifier *)

(** At the string of an identifier the route is [computeHealth]. *)
Lemma healthRoute_canonical (parseObjectId : string -> option ObjectId) (now : Z)
    (projectId : string) (db : Db) :
  parseObjectId projectId = Some projectId ->
  healthRoute parseObjectId now projectId db
  = (Returns (fst (computeHealth now projectId db)),
     snd (computeHealth now projectId db)).
Proof.
  intro H. unfold healthRoute, computeHealth. rewrite H.
  destruct (findOne (projects db) projectId); reflexivity.
Qed.

(** X18.  The health handler looks the project up by the identifier read
    from the route parameter, but its feedback and check-ins by the
    parameter itself.  At a spelling of the identifier that no feedback and
    no check-in carries as [projectId], it finds the project, reads none of
    its records, answers the default score 80 with "On Track" and stores
    them on the project. *)
Theorem health_by_other_spelling (parseObjectId : string -> option ObjectId)
    (now : Z) (projectId : string) (db : Db) (id : ObjectId) (p : Project) :
  parseObjectId projectId = Some id ->
  findOne (projects db) id = Some p ->
  (forall f, In f (feedbacks db) -> f_projectId f <> projectId) ->
  (forall c, In c (checkins db) -> c_projectId c <> projectId) ->
  healthRoute parseObjectId now projectId db
  = (Returns (Json (int 80) "On Track"),
     {| projects := updateOne (projects db) id (int 80) "On Track" now;
        checkins := checkins db;
        feedbacks := feedbacks db;
        risks := risks db |})
  /\ findOne (updateOne (projects db) id (int 80) "On Track" now) id
     = Some (setHealth p (int 80) "On Track" now).
Proof.
  intros Hid Hp Hf Hc. split; [| apply findOne_updateOne, Hp].
  unfold healthRoute. rewrite Hid, Hp.
  assert (filter (fun f => (f_projectId f =? projectId)%string) (feedbacks db) = []) as ->.
  { induction (feedbacks db) as [| f fs IH]; [reflexivity |].
    cbn [filter].
    assert ((f_projectId f =? projectId)%string = false) as ->
        by (apply String.eqb_neq, Hf; left; reflexivity).
    apply IH. intros g Hg. apply Hf. right. exact Hg. }
  assert (filter (fun c => (c_projectId c =? projectId)%string) (checkins db) = []) as ->.
  { induction (checkins db) as [| c cs IH]; [reflexivity |].
    cbn [filter].
    assert ((c_projectId c =? projectId)%string = false) as ->
        by (apply String.eqb_neq, Hc; left; reflexivity).
    apply IH. intros g Hg. apply Hc. right. exact Hg. }
  reflexivity.
Qed.

Lemma health_by_other_spelling_witness :
  healthRoute hexObjectId 7 "65A000000000000000000001" dbFlagged
  = (Returns (Json (int 80) "On Track"),
     {| projects := updateOne (projects dbFlagged) (p_id apollo) (int 80) "On Track" 7;
        checkins := checkins dbFlagged;
        feedbacks := feedbacks dbFlagged;
        risks := risks dbFlagged |})
  /\ findOne (updateOne (projects dbFlagged) (p_id apollo) (int 80) "On Track" 7)
             (p_id apollo)
     = Some (setHealth apollo (int 80) "On Track" 7).
Proof.
  apply (health_by_other_spelling hexObjectId 7 "65A000000000000000000001" dbFlagged
           (p_id apollo) apollo).
  - reflexivity.
  - reflexivity.
  - intros f [<- | [<- | []]]; discriminate.
  - intros c [].
Defined.
